(** * SparksFinance: the transfer engine of [finance/services.py]

    A shallow embedding of the service layer ([TransactionService],
    [AuditService], [AccountService]) and of the model methods they call
    ([BankAccount.can_transfer], [BankAccount.get_daily_transfer_total],
    [Transaction.save]) over an explicit store, followed by the properties
    of the transfer engine.

    Conventions.
    - A [Decimal] with two decimal places is an integer number of minor
      units (cents): [Decimal('200.00')] is [20000].
    - A Python exception is represented by its text, [str(e)], which is all
      the service layer ever looks at.
    - Database rows live in a [DB]; code that runs inside
      [@db_transaction.atomic] is a computation in the monad [M] over a
      connection state [Conn]. *)

From Stdlib Require Import ZArith List Bool Lia Ascii.
From stdpp Require Import base option gmap strings list fin_maps pretty sorting.

Local Open Scope string_scope.
Local Open Scope Z_scope.

(** ** Decimal amounts *)

(** [str(Decimal)] for a two-place decimal held in minor units. *)
Definition two_digits (n : Z) : string :=
  if n <? 10 then "0" +:+ pretty n else pretty n.

Definition str_decimal (d : Z) : string :=
  (if d <? 0 then "-" else EmptyString) +:+
  pretty (Z.abs d / 100) +:+ "." +:+ two_digits (Z.abs d mod 100).

(** ** Time

    A [datetime] keeps its calendar date (as a day number) apart from its
    time of day, the way Python's [datetime] keeps year/month/day apart
    from hour/minute/second/microsecond. *)

Record datetime := { date : Z; time_of_day : Z }.

(** [dt.replace(hour=0, minute=0, second=0, microsecond=0)] *)
Definition replace_midnight (dt : datetime) : datetime :=
  {| date := date dt; time_of_day := 0 |}.

(** [a <= b] on datetimes, the order behind [created_at__gte] and
    [created_at__lte]. *)
Definition datetime_leb (a b : datetime) : bool :=
  (date a <? date b) || ((date a =? date b) && (time_of_day a <=? time_of_day b)).

(** ** Models ([finance/models.py]) *)

Module BankAccount.
Record t := {
  pk : Z;
  user : Z;
  account_number : string;
  balance : Z;
  is_active : bool;
  daily_transfer_limit : Z
}.

Definition with_pk (k : Z) (a : t) : t :=
  {| pk := k; user := user a; account_number := account_number a;
     balance := balance a; is_active := is_active a;
     daily_transfer_limit := daily_transfer_limit a |}.

Definition with_balance (b : Z) (a : t) : t :=
  {| pk := pk a; user := user a; account_number := account_number a;
     balance := b; is_active := is_active a;
     daily_transfer_limit := daily_transfer_limit a |}.

(** [has_sufficient_balance]: [self.balance >= amount] *)
Definition has_sufficient_balance (self : t) (amount : Z) : bool :=
  amount <=? balance self.
End BankAccount.

(** [Transaction.STATUS_CHOICES] *)
Inductive Status := pending | completed | failed | cancelled.

Definition Status_eqb (a b : Status) : bool :=
  match a, b with
  | pending, pending | completed, completed
  | failed, failed | cancelled, cancelled => true
  | _, _ => false
  end.

Module Transaction.
(** [sender] and [receiver] are foreign keys: the primary key of the
    account row.  [pk] is the row's position in the transactions table. *)
Record t := {
  pk : nat;
  transaction_id : string;
  sender : Z;
  receiver : Z;
  amount : Z;
  description : string;
  status : Status;
  created_at : datetime;
  completed_at : option datetime;
  failure_reason : option string;
  sender_balance_before : option Z;
  sender_balance_after : option Z;
  receiver_balance_before : option Z;
  receiver_balance_after : option Z
}.

(** The assignments of [transfer_money] lines 72-75. *)
Definition complete (sb rb : Z) (now : datetime) (x : t) : t :=
  {| pk := pk x; transaction_id := transaction_id x;
     sender := sender x; receiver := receiver x; amount := amount x;
     description := description x;
     status := completed;
     created_at := created_at x;
     completed_at := Some now;
     failure_reason := failure_reason x;
     sender_balance_before := sender_balance_before x;
     sender_balance_after := Some sb;
     receiver_balance_before := receiver_balance_before x;
     receiver_balance_after := Some rb |}.

(** The assignments of [transfer_money] lines 100-101. *)
Definition fail (reason : string) (x : t) : t :=
  {| pk := pk x; transaction_id := transaction_id x;
     sender := sender x; receiver := receiver x; amount := amount x;
     description := description x;
     status := failed;
     created_at := created_at x;
     completed_at := completed_at x;
     failure_reason := Some reason;
     sender_balance_before := sender_balance_before x;
     sender_balance_after := sender_balance_after x;
     receiver_balance_before := receiver_balance_before x;
     receiver_balance_after := receiver_balance_after x |}.
End Transaction.

Module AuditLog.
Record t := {
  user : Z;
  action : string;
  description : string;
  ip_address : option string;
  user_agent : option string;
  related_transaction : option nat;
  related_account : option Z;
  created_at : datetime
}.
End AuditLog.

(** [HttpRequest]: only [request.META] is read. *)
Record HttpRequest := { META : gmap string string }.

(** ** The store *)

Record DB := {
  bank_accounts : gmap Z BankAccount.t;
  transactions : list Transaction.t;
  audit_logs : list AuditLog.t
}.

Definition set_bank_accounts (f : gmap Z BankAccount.t → gmap Z BankAccount.t)
    (db : DB) : DB :=
  {| bank_accounts := f (bank_accounts db);
     transactions := transactions db; audit_logs := audit_logs db |}.

Definition set_transactions (f : list Transaction.t → list Transaction.t)
    (db : DB) : DB :=
  {| bank_accounts := bank_accounts db;
     transactions := f (transactions db); audit_logs := audit_logs db |}.

Definition set_audit_logs (f : list AuditLog.t → list AuditLog.t)
    (db : DB) : DB :=
  {| bank_accounts := bank_accounts db;
     transactions := transactions db; audit_logs := f (audit_logs db) |}.

(** The persisted balance of account [k]. *)
Definition balance_of (db : DB) (k : Z) : option Z :=
  BankAccount.balance <$> bank_accounts db !! k.

(** The sum of all account balances in the system. *)
Definition total_balance (db : DB) : Z :=
  map_fold (λ _ a acc, BankAccount.balance a + acc) 0 (bank_accounts db).

(** ** The environment of one call

    Everything a call of the service layer takes from outside its
    arguments and the store: the clock, the random part of a new
    transaction id, and which storage writes fail.

    A write can fail in two ways.  An exception raised while Django runs
    the statement (any database error: [Model.save_base] runs the write
    under [transaction.mark_for_rollback_on_error]) marks the enclosing
    [atomic] block for rollback; until the block ends every further query
    raises [TransactionManagementError], and the block is rolled back when
    it ends, even if it ends by a normal return.  An exception raised by
    [save()] before the statement is reached (a [pre_save] receiver, or the
    patched [save] of [tests.py], [test_atomic_transaction_rollback]) leaves
    the block unmarked.  [marks_rollback] tells the two apart.  In both
    cases the failed write itself has no effect.

    The decorator of line 19 talks to the database twice more, outside the
    [try] of lines 34-109: when the block is entered (the connection is
    opened and the transaction begun) and when it is left by a normal
    return ([COMMIT]).  Either can fail with a database error. *)

Inductive StorageOp :=
| EnterAtomic              (* @db_transaction.atomic, line 19: entering *)
| CreateTransaction        (* Transaction.objects.create, line 56 *)
| SaveSender               (* sender.save(), line 78 *)
| SaveReceiver             (* receiver.save(), line 79 *)
| SaveTransaction          (* transaction_obj.save(), line 80 *)
| CreateAuditLog           (* AuditLog.objects.create, line 217 *)
| SaveFailedTransaction    (* transaction_obj.save(), line 102 *)
| Commit.                  (* @db_transaction.atomic, line 19: COMMIT *)

Record Fault := { fault_text : string; marks_rollback : bool }.

Record Env := {
  faults : StorageOp → option Fault;
  now : datetime;          (* timezone.now() *)
  now_Ymd : string;        (* timezone.now().strftime('%Y%m%d') *)
  uuid_hex8 : string       (* uuid.uuid4().hex[:8].upper() *)
}.

(** ** Computations inside an atomic block *)

Inductive Outcome (A : Type) :=
| Return (a : A)
| Raise (e : string).
Arguments Return {A} a.
Arguments Raise {A} e.

(** The connection during an atomic block: [committed] is what other
    connections see (and what a rollback restores), [working] is
    [committed] plus this block's own writes, [locks] lists the rows
    locked by [select_for_update], in the order they were locked. *)
Record Conn := {
  committed : DB;
  working : DB;
  needs_rollback : bool;
  locks : list Z
}.

Definition M (A : Type) : Type := Conn → Outcome A * Conn.

Definition ret {A} (a : A) : M A := λ c, (Return a, c).

Definition raise {A} (e : string) : M A := λ c, (Raise e, c).

Definition bind {A B} (m : M A) (k : A → M B) : M B := λ c,
  match m c with
  | (Return a, c') => k a c'
  | (Raise e, c') => (Raise e, c')
  end.

(** [try: m except Exception as e: h e] *)
Definition try_except {A} (m : M A) (h : string → M A) : M A := λ c,
  match m c with
  | (Return a, c') => (Return a, c')
  | (Raise e, c') => h e c'
  end.

Declare Scope db_scope.
Delimit Scope db_scope with db.
Notation "x <- c1 ;; c2" := (bind c1 (λ x, c2))
  (at level 100, c1 at next level, right associativity) : db_scope.
Notation "c1 ;; c2" := (bind c1 (λ _, c2))
  (at level 100, right associativity) : db_scope.
Local Open Scope db_scope.

Definition TransactionManagementError : string :=
  "An error occurred in the current transaction. You can't execute queries until the end of the 'atomic' block.".

Definition DoesNotExist : string :=
  "BankAccount matching query does not exist.".

(** A read query. *)
Definition query {A} (f : DB → Outcome A) : M A := λ c,
  if needs_rollback c then (Raise TransactionManagementError, c)
  else (f (working c), c).

(** A write: [INSERT] or [UPDATE] issued by [save()] / [objects.create]. *)
Definition execute_write (env : Env) (op : StorageOp) (upd : DB → DB) : M unit := λ c,
  if needs_rollback c then (Raise TransactionManagementError, c)
  else match faults env op with
       | Some f =>
           (Raise (fault_text f),
            {| committed := committed c; working := working c;
               needs_rollback := marks_rollback f; locks := locks c |})
       | None =>
           (Return tt,
            {| committed := committed c; working := upd (working c);
               needs_rollback := false; locks := locks c |})
       end.

(** [BankAccount.objects.select_for_update().get(pk=k)].

    The statement blocks until no other transaction holds the row, and
    then reads the row as last committed.  [others] is what the
    transactions it had to wait for (none, when the call runs alone:
    [others = id]) committed meanwhile; this block has written nothing
    yet when it takes its locks. *)
Definition select_for_update_get (others : DB → DB) (k : Z) : M BankAccount.t := λ c,
  if needs_rollback c then (Raise TransactionManagementError, c)
  else
    let db := others (working c) in
    match bank_accounts db !! k with
    | Some row =>
        (Return (BankAccount.with_pk k row),
         {| committed := others (committed c); working := db;
            needs_rollback := false; locks := (locks c ++ [k])%list |})
    | None =>
        (Raise DoesNotExist,
         {| committed := others (committed c); working := db;
            needs_rollback := false; locks := locks c |})
    end.

(** [@db_transaction.atomic] around an outermost call
    ([django.db.transaction.Atomic]). *)
Definition start (db : DB) : Conn :=
  {| committed := db; working := db; needs_rollback := false; locks := [] |}.

(** [Atomic.__exit__]: a block left by an exception, or marked for
    rollback, is rolled back, and the exception or the returned value goes
    on to the caller.  A block left unmarked by a normal return is
    committed; when the [COMMIT] fails the block is rolled back and the
    database error is raised to the caller in place of the returned
    value. *)
Definition atomic_exit {A} (env : Env) (r : Outcome A * Conn) : Outcome A * DB :=
  match r with
  | (Return a, c) =>
      if needs_rollback c then (Return a, committed c)
      else match faults env Commit with
           | Some f => (Raise (fault_text f), committed c)
           | None => (Return a, working c)
           end
  | (Raise e, c) => (Raise e, committed c)
  end.

(** [Atomic.__enter__], the decorated function, [Atomic.__exit__]: when
    the block cannot be entered the function is not run. *)
Definition atomic {A} (env : Env) (m : M A) (db : DB) : Outcome A * DB :=
  match faults env EnterAtomic with
  | Some f => (Raise (fault_text f), db)
  | None => atomic_exit env (m (start db))
  end.

(** ** Model methods ([finance/models.py]) *)

(** The rows selected by [get_daily_transfer_total], lines 96-99:
    [self.sent_transactions.filter(status='completed',
    created_at__gte=today_start)]. *)
Definition sent_today (today_start : datetime) (self : BankAccount.t)
    (x : Transaction.t) : bool :=
  (Transaction.sender x =? BankAccount.pk self)
  && Status_eqb (Transaction.status x) completed
  && datetime_leb today_start (Transaction.created_at x).

(** [aggregate(total=Sum('amount'))['total'] or Decimal('0.00')] *)
Definition Sum_amount (rows : list Transaction.t) : Z :=
  foldr (λ x acc, Transaction.amount x + acc) 0 rows.

Definition daily_transfer_total (env : Env) (db : DB) (self : BankAccount.t) : Z :=
  let today_start := replace_midnight (now env) in
  Sum_amount (List.filter (sent_today today_start self) (transactions db)).

(** [BankAccount.get_daily_transfer_total], lines 93-100. *)
Definition get_daily_transfer_total (env : Env) (self : BankAccount.t) : M Z :=
  query (λ db, Return (daily_transfer_total env db self)).

Definition daily_limit_message (limit used : Z) : string :=
  "Daily transfer limit exceeded. Limit: " +:+ str_decimal limit
  +:+ ", Used: " +:+ str_decimal used.

(** [BankAccount.can_transfer], lines 102-117. *)
Definition can_transfer (env : Env) (self : BankAccount.t) (amount : Z)
    : M (bool * string) :=
  if negb (BankAccount.is_active self) then
    ret (false, "Account is not active")
  else if amount <=? 0 then
    ret (false, "Transfer amount must be positive")
  else if negb (BankAccount.has_sufficient_balance self amount) then
    ret (false, "Insufficient balance")
  else
    daily_total <- get_daily_transfer_total env self ;;
    if BankAccount.daily_transfer_limit self <? daily_total + amount then
      ret (false,
           daily_limit_message (BankAccount.daily_transfer_limit self) daily_total)
    else
      ret (true, "Transfer allowed").

(** [BankAccount.save()] of a row that exists: an [UPDATE] by primary key. *)
Definition BankAccount_save (env : Env) (op : StorageOp) (self : BankAccount.t)
    : M unit :=
  execute_write env op (set_bank_accounts <[BankAccount.pk self := self]>).

(** [Transaction.save()], lines 222-228, of a row that exists (its
    [transaction_id] is set): an [UPDATE] by primary key. *)
Definition Transaction_save (env : Env) (op : StorageOp) (self : Transaction.t)
    : M unit :=
  execute_write env op (set_transactions <[Transaction.pk self := self]>).

(** [Transaction.objects.create(...)] as called on lines 56-64: a new row
    with status [pending]; [save()] gives it its [transaction_id],
    [auto_now_add] its [created_at]. *)
Definition Transaction_objects_create (env : Env) (sender receiver : BankAccount.t)
    (amount : Z) (description : string) : M Transaction.t := λ c,
  let obj :=
    {| Transaction.pk := length (transactions (working c));
       Transaction.transaction_id := "TXN" +:+ now_Ymd env +:+ uuid_hex8 env;
       Transaction.sender := BankAccount.pk sender;
       Transaction.receiver := BankAccount.pk receiver;
       Transaction.amount := amount;
       Transaction.description := description;
       Transaction.status := pending;
       Transaction.created_at := now env;
       Transaction.completed_at := None;
       Transaction.failure_reason := None;
       Transaction.sender_balance_before := Some (BankAccount.balance sender);
       Transaction.sender_balance_after := None;
       Transaction.receiver_balance_before := Some (BankAccount.balance receiver);
       Transaction.receiver_balance_after := None |} in
  (execute_write env CreateTransaction (set_transactions (λ rows, (rows ++ [obj])%list)) ;;
   ret obj) c.

(** ** [AuditService] ([finance/services.py]) *)

(** [s.split(',')[0]] *)
Fixpoint split_comma_first (s : string) : string :=
  match s with
  | EmptyString => EmptyString
  | String a rest =>
      if Ascii.eqb a ","%char then EmptyString
      else String a (split_comma_first rest)
  end.

(** Lines 206-212. *)
Definition request_ip_address (request : HttpRequest) : option string :=
  match META request !! "HTTP_X_FORWARDED_FOR" with
  | Some x_forwarded_for =>
      if String.eqb x_forwarded_for EmptyString then META request !! "REMOTE_ADDR"
      else Some (split_comma_first x_forwarded_for)
  | None => META request !! "REMOTE_ADDR"
  end.

(** [AuditService.log_action], lines 185-231. *)
Definition log_action (env : Env) (user : Z) (action description : string)
    (related_transaction : option Transaction.t)
    (related_account : option BankAccount.t)
    (request : option HttpRequest) : M (option AuditLog.t) :=
  try_except
    (let ip_address := request ≫= request_ip_address in
     let user_agent :=
       (λ r, default EmptyString (META r !! "HTTP_USER_AGENT")) <$> request in
     let audit_log :=
       {| AuditLog.user := user;
          AuditLog.action := action;
          AuditLog.description := description;
          AuditLog.ip_address := ip_address;
          AuditLog.user_agent := user_agent;
          AuditLog.related_transaction := Transaction.pk <$> related_transaction;
          AuditLog.related_account := BankAccount.pk <$> related_account;
          AuditLog.created_at := now env |} in
     execute_write env CreateAuditLog (set_audit_logs (λ rows, (rows ++ [audit_log])%list)) ;;
     ret (Some audit_log))
    (λ _, ret None).

(** ** [TransactionService.transfer_money] ([finance/services.py], 18-109)

    [sender] and [receiver] are the caller's objects; lines 48-49 rebind
    the two names to fresh objects read under the row locks, which the rest
    of the function works on.  The assignments of lines 68-75 touch only
    those in-memory objects and cannot fail, so they are bound before the
    inner [try], whose handler sees their effect on [transaction_obj]. *)

(** The block of the outer [try], lines 35-105. *)
Definition transfer_money_try (env : Env) (others : DB → DB)
    (sender receiver : BankAccount.t) (amount : Z) (description : string)
    (request : option HttpRequest) : M (bool * string * option Transaction.t) :=
  if BankAccount.pk sender =? BankAccount.pk receiver then
    ret (false, "Cannot transfer money to the same account", None)
  else if amount <=? 0 then
    ret (false, "Transfer amount must be positive", None)
  else
    check <- can_transfer env sender amount ;;
    if negb (fst check) then ret (false, snd check, None)
    else
      sender <- select_for_update_get others (BankAccount.pk sender) ;;
      receiver <- select_for_update_get id (BankAccount.pk receiver) ;;
      if BankAccount.balance sender <? amount then
        ret (false, "Insufficient balance", None)
      else
        transaction_obj <-
          Transaction_objects_create env sender receiver amount description ;;
        let sender :=
          BankAccount.with_balance (BankAccount.balance sender - amount) sender in
        let receiver :=
          BankAccount.with_balance (BankAccount.balance receiver + amount) receiver in
        let transaction_obj :=
          Transaction.complete (BankAccount.balance sender)
            (BankAccount.balance receiver) (now env) transaction_obj in
        try_except
          (BankAccount_save env SaveSender sender ;;
           BankAccount_save env SaveReceiver receiver ;;
           Transaction_save env SaveTransaction transaction_obj ;;
           log_action env (BankAccount.user sender) "transaction_completed"
             ("Transfer of " +:+ str_decimal amount +:+ " from "
              +:+ BankAccount.account_number sender +:+ " to "
              +:+ BankAccount.account_number receiver)
             (Some transaction_obj) None request ;;
           ret (true,
                "Transfer successful! Transaction ID: "
                +:+ Transaction.transaction_id transaction_obj,
                Some transaction_obj))
          (λ e,
             Transaction_save env SaveFailedTransaction
               (Transaction.fail e transaction_obj) ;;
             raise e).

(** The body of the function: the outer [try] with its handler, lines
    107-109. *)
Definition transfer_money_body (env : Env) (others : DB → DB)
    (sender receiver : BankAccount.t) (amount : Z) (description : string)
    (request : option HttpRequest) : M (bool * string * option Transaction.t) :=
  try_except
    (transfer_money_try env others sender receiver amount description request)
    (λ e, ret (false, "Transfer failed: " +:+ e, None)).

(** The decorated function, called outside any other atomic block, while
    the transactions it waits for at its first lock commit [others]. *)
Definition transfer_money_concurrent (env : Env) (others : DB → DB) (db : DB)
    (sender receiver : BankAccount.t) (amount : Z) (description : string)
    (request : option HttpRequest)
    : Outcome (bool * string * option Transaction.t) * DB :=
  atomic env
    (transfer_money_body env others sender receiver amount description request) db.

(** The decorated function when the call runs alone. *)
Definition transfer_money (env : Env) (db : DB)
    (sender receiver : BankAccount.t) (amount : Z) (description : string)
    (request : option HttpRequest)
    : Outcome (bool * string * option Transaction.t) * DB :=
  transfer_money_concurrent env id db sender receiver amount description request.

(** The rows locked by a call, in the order they were locked. *)
Definition locks_acquired (env : Env) (db : DB)
    (sender receiver : BankAccount.t) (amount : Z) (description : string)
    (request : option HttpRequest) : list Z :=
  locks (snd (transfer_money_body env id sender receiver amount description request
                (start db))).

(** ** [TransactionService.get_account_statement] (lines 111-152) *)

Module Statement.
(** The dict returned on lines 142-152. *)
Record t := {
  account : BankAccount.t;
  transactions : list Transaction.t;
  sent_total : Z;
  received_total : Z;
  net_change : Z;
  opening_balance : Z;
  closing_balance : Z;
  date_from : option datetime;
  date_to : option datetime
}.
End Statement.

(** [order_by('created_at')] *)
Fixpoint insert_by_created_at (x : Transaction.t) (rows : list Transaction.t)
    : list Transaction.t :=
  match rows with
  | [] => [x]
  | y :: rest =>
      if datetime_leb (Transaction.created_at x) (Transaction.created_at y)
      then x :: y :: rest
      else y :: insert_by_created_at x rest
  end.

Definition order_by_created_at (rows : list Transaction.t) : list Transaction.t :=
  foldr insert_by_created_at [] rows.

(** [Q(sender=account) | Q(receiver=account), status='completed'] *)
Definition involves_completed (account : BankAccount.t) (x : Transaction.t) : bool :=
  ((Transaction.sender x =? BankAccount.pk account)
   || (Transaction.receiver x =? BankAccount.pk account))
  && Status_eqb (Transaction.status x) completed.

(** Lines 124-152, once the names they use are resolved.  A [datetime] is
    always true in [if date_from:], [None] is not. *)
Definition account_statement (db : DB) (account : BankAccount.t)
    (date_from date_to : option datetime) : Statement.t :=
  let rows :=
    order_by_created_at (List.filter (involves_completed account) (transactions db)) in
  let rows :=
    match date_from with
    | Some d => List.filter (λ x, datetime_leb d (Transaction.created_at x)) rows
    | None => rows
    end in
  let rows :=
    match date_to with
    | Some d => List.filter (λ x, datetime_leb (Transaction.created_at x) d) rows
    | None => rows
    end in
  let sent_total :=
    Sum_amount (List.filter (λ x, Transaction.sender x =? BankAccount.pk account) rows) in
  let received_total :=
    Sum_amount (List.filter (λ x, Transaction.receiver x =? BankAccount.pk account) rows) in
  {| Statement.account := account;
     Statement.transactions := rows;
     Statement.sent_total := sent_total;
     Statement.received_total := received_total;
     Statement.net_change := received_total - sent_total;
     Statement.opening_balance :=
       BankAccount.balance account - (received_total - sent_total);
     Statement.closing_balance := BankAccount.balance account;
     Statement.date_from := date_from;
     Statement.date_to := date_to |}.

(** The names bound in the module [django.db.transaction], which
    [services.py] imports as [db_transaction] (line 5).  [Q] is a name of
    [django.db.models]; [views.py] imports it from there (line 11). *)
Definition django_db_transaction : list string :=
  [ "ContextDecorator"; "contextmanager"; "DEFAULT_DB_ALIAS"; "DatabaseError";
    "Error"; "ProgrammingError"; "connections"; "TransactionManagementError";
    "get_connection"; "get_autocommit"; "set_autocommit"; "commit"; "rollback";
    "savepoint"; "savepoint_rollback"; "savepoint_commit"; "clean_savepoints";
    "get_rollback"; "set_rollback"; "mark_for_rollback_on_error"; "on_commit";
    "Atomic"; "atomic"; "_non_atomic_requests"; "non_atomic_requests" ].

(** Attribute lookup on a module object. *)
Definition module_getattr (module_name : string) (names : list string)
    (name : string) : Outcome unit :=
  if existsb (String.eqb name) names then Return tt
  else Raise ("module '" +:+ module_name +:+ "' has no attribute '" +:+ name +:+ "'").

(** The function as written: line 125 evaluates [db_transaction.Q] before
    any query is built. *)
Definition get_account_statement (db : DB) (account : BankAccount.t)
    (date_from date_to : option datetime) : Outcome Statement.t :=
  match module_getattr "django.db.transaction" django_db_transaction "Q" with
  | Return _ => Return (account_statement db account date_from date_to)
  | Raise e => Raise e
  end.

(** ** [AccountService.generate_account_number] (lines 251-270) *)

(** What one turn of the loop takes from the clock and from [random]:
    [timezone.now().strftime('%y%m%d')] and
    [''.join(random.choices(string.digits, k=8))]. *)
Record Draw := { date_part : string; random_part : string }.

(** [BankAccount.objects.filter(account_number=n).exists()] *)
Definition account_number_exists (db : DB) (n : string) : bool :=
  existsb (λ kv, String.eqb (BankAccount.account_number (snd kv)) n)
          (map_to_list (bank_accounts db)).

Definition candidate (d : Draw) : string :=
  "SPF" +:+ date_part d +:+ random_part d.

(** [while True:] run for at most [fuel] turns, starting at draw [i];
    [None] when the loop is still running after [fuel] turns. *)
Fixpoint generate_account_number_from (fuel : nat) (db : DB) (draws : nat → Draw)
    (i : nat) : option string :=
  match fuel with
  | O => None
  | S fuel' =>
      let account_number := candidate (draws i) in
      if account_number_exists db account_number
      then generate_account_number_from fuel' db draws (S i)
      else Some account_number
  end.

Definition generate_account_number (fuel : nat) (db : DB) (draws : nat → Draw)
    : option string :=
  generate_account_number_from fuel db draws 0.

(** ** Example data: the accounts of [tests.py], [TransactionServiceTest] *)

Definition account (k : Z) (number : string) (bal limit : Z) (active : bool)
    : BankAccount.t :=
  {| BankAccount.pk := k; BankAccount.user := k;
     BankAccount.account_number := number; BankAccount.balance := bal;
     BankAccount.is_active := active; BankAccount.daily_transfer_limit := limit |}.

Definition sender_account : BankAccount.t := account 1 "SPF001" 100000 10000000 true.
Definition receiver_account : BankAccount.t := account 2 "SPF002" 50000 10000000 true.

Definition store (accounts : list BankAccount.t) : DB :=
  {| bank_accounts := list_to_map ((λ a, (BankAccount.pk a, a)) <$> accounts);
     transactions := []; audit_logs := [] |}.

Definition test_db : DB := store [sender_account; receiver_account].

Definition no_fault : StorageOp → option Fault := λ _, None.

Definition StorageOp_eqb (a b : StorageOp) : bool :=
  match a, b with
  | EnterAtomic, EnterAtomic
  | CreateTransaction, CreateTransaction | SaveSender, SaveSender
  | SaveReceiver, SaveReceiver | SaveTransaction, SaveTransaction
  | CreateAuditLog, CreateAuditLog
  | SaveFailedTransaction, SaveFailedTransaction
  | Commit, Commit => true
  | _, _ => false
  end.

(** Exactly the write [op] fails, with text [text]. *)
Definition fault_at (op : StorageOp) (text : string) (marks : bool)
    : StorageOp → option Fault :=
  λ o, if StorageOp_eqb o op
       then Some {| fault_text := text; marks_rollback := marks |}
       else None.

Definition env_with (f : StorageOp → option Fault) : Env :=
  {| faults := f; now := {| date := 20000; time_of_day := 43200 |};
     now_Ymd := "20241005"; uuid_hex8 := "1A2B3C4D" |}.

(** ** Definitions used by the statements below *)

(** The account rows after the debit of [ps] and the credit of [pr]. *)
Definition debit_credit (db : DB) (ps pr : Z) (rs rr : BankAccount.t) (amount : Z)
    : gmap Z BankAccount.t :=
  <[pr := BankAccount.with_balance (BankAccount.balance rr + amount)
            (BankAccount.with_pk pr rr)]>
    (<[ps := BankAccount.with_balance (BankAccount.balance rs - amount)
              (BankAccount.with_pk ps rs)]>
       (bank_accounts db)).

(** The checks of lines 36-53, on the caller's objects and on the rows
    read under lock. *)
Definition rejected (env : Env) (db : DB) (sender receiver : BankAccount.t)
    (amount : Z) : Prop :=
  BankAccount.pk sender = BankAccount.pk receiver
  ∨ amount ≤ 0
  ∨ BankAccount.is_active sender = false
  ∨ BankAccount.balance sender < amount
  ∨ BankAccount.daily_transfer_limit sender
    < daily_transfer_total env db sender + amount
  ∨ bank_accounts db !! BankAccount.pk sender = None
  ∨ bank_accounts db !! BankAccount.pk receiver = None
  ∨ (∃ row, bank_accounts db !! BankAccount.pk sender = Some row
            ∧ BankAccount.balance row < amount).

(** The one write that fails in [env] is [op], with fault [f]. *)
Definition only_fault (env : Env) (op : StorageOp) (f : Fault) : Prop :=
  ∀ o, faults env o = if StorageOp_eqb o op then Some f else None.

(** *** The daily total in the words of the specification *)

Global Instance Status_eq_dec : EqDecision Status.
Proof. solve_decision. Defined.

Definition datetime_le (a b : datetime) : Prop :=
  date a < date b ∨ (date a = date b ∧ time_of_day a ≤ time_of_day b).

(** A transaction counts towards the day's total of [account] when its
    status is [completed], the account is its sender, and it was created
    on the current date or later. *)
Definition counted_today (env : Env) (account : BankAccount.t) (x : Transaction.t)
    : Prop :=
  Transaction.status x = completed
  ∧ Transaction.sender x = BankAccount.pk account
  ∧ date (now env) ≤ date (Transaction.created_at x).

(** The amounts of the transactions of [rows] that count add up to [S]. *)
Inductive counted_amounts_add_up (env : Env) (account : BankAccount.t)
    : list Transaction.t → Z → Prop :=
| add_up_nil : counted_amounts_add_up env account [] 0
| add_up_counted x rows S :
    counted_today env account x →
    counted_amounts_add_up env account rows S →
    counted_amounts_add_up env account (x :: rows) (Transaction.amount x + S)
| add_up_skipped x rows S :
    ¬ counted_today env account x →
    counted_amounts_add_up env account rows S →
    counted_amounts_add_up env account (x :: rows) S.

(** [S] is the sum of the same-day completed transfers sent by [account]. *)
Definition same_day_completed_total (env : Env) (db : DB) (account : BankAccount.t)
    (S : Z) : Prop :=
  counted_amounts_add_up env account (transactions db) S.

(** A time of day is counted from midnight. *)
Definition times_of_day_from_midnight (db : DB) : Prop :=
  ∀ x, x ∈ transactions db → 0 ≤ time_of_day (Transaction.created_at x).

(** *** Lock order *)

Fixpoint ascending (l : list Z) : bool :=
  match l with
  | a :: (b :: _) as rest => (a <? b) && ascending rest
  | _ => true
  end.

(** Two calls, each holding the first row of its list and asking for the
    second, wait for each other. *)
Definition circular_wait (a b : list Z) : bool :=
  match a, b with
  | [a1; a2], [b1; b2] => negb (a1 =? b1) && (a2 =? b1) && (b2 =? a1)
  | _, _ => false
  end.

(** *** More example data *)

(** An account with a daily limit of 100.00 that has sent 60.00 today. *)
Definition limited_sender : BankAccount.t := account 1 "SPF001" 100000 10000 true.

Definition sent_60_today : DB :=
  snd (transfer_money (env_with no_fault) (store [limited_sender; receiver_account])
         limited_sender receiver_account 6000 "rent" None).

(** Later on the day of [env_with]. *)
Definition later_that_day : Env :=
  {| faults := no_fault; now := {| date := 20000; time_of_day := 64800 |};
     now_Ymd := "20241005"; uuid_hex8 := "5E6F7A8B" |}.

(** A store with one account, and a source of draws that gives the number
    of that account at every turn. *)
Definition taken_number_db : DB :=
  store [account 1 "SPF24100500000000" 0 10000000 true].

Definition same_draw_forever : nat → Draw :=
  λ _, {| date_part := "241005"; random_part := "00000000" |}.

(** The second draw is free. *)
Definition second_draw_free : nat → Draw :=
  λ i, {| date_part := "241005";
          random_part := if (i =? 0)%nat then "00000000" else "00000001" |}.

(** ** Writes outside an atomic block

    [cancel_transaction], [deactivate_account], [update_daily_limit] and
    the views that call [log_action] run in autocommit mode: every write
    is committed as it is made, and a write that fails changes nothing and
    marks nothing.  [fault] is the text of the exception the write raises,
    when it raises one. *)

Definition autocommit {A} (m : M A) (db : DB) : Outcome A * DB :=
  let r := m (start db) in (fst r, working (snd r)).

Definition save_autocommit (fault : option string) (upd : DB → DB) : M unit := λ c,
  match fault with
  | Some e => (Raise e, c)
  | None =>
      (Return tt,
       {| committed := upd (working c); working := upd (working c);
          needs_rollback := needs_rollback c; locks := locks c |})
  end.

(** ** Model validation ([finance/models.py])

    A [ValidationError] is represented by its message. *)

(** [BankAccount.clean], lines 82-87. *)
Definition BankAccount_clean (self : BankAccount.t) : Outcome unit :=
  if BankAccount.balance self <? 0 then Raise "Balance cannot be negative"
  else if BankAccount.daily_transfer_limit self <? 0 then
    Raise "Daily transfer limit cannot be negative"
  else Return tt.

(** [Transaction.clean], lines 214-220; [self.sender == self.receiver]
    compares the primary keys of the two accounts. *)
Definition Transaction_clean (self : Transaction.t) : Outcome unit :=
  if Transaction.sender self =? Transaction.receiver self then
    Raise "Cannot transfer money to the same account"
  else if Transaction.amount self <=? 0 then
    Raise "Transfer amount must be positive"
  else Return tt.

(** ** [TransactionService.cancel_transaction] (lines 154-179) *)

(** The assignments of lines 170-171. *)
Definition Transaction_cancelled (reason : string) (x : Transaction.t) : Transaction.t :=
  {| Transaction.pk := Transaction.pk x;
     Transaction.transaction_id := Transaction.transaction_id x;
     Transaction.sender := Transaction.sender x;
     Transaction.receiver := Transaction.receiver x;
     Transaction.amount := Transaction.amount x;
     Transaction.description := Transaction.description x;
     Transaction.status := cancelled;
     Transaction.created_at := Transaction.created_at x;
     Transaction.completed_at := Transaction.completed_at x;
     Transaction.failure_reason := Some reason;
     Transaction.sender_balance_before := Transaction.sender_balance_before x;
     Transaction.sender_balance_after := Transaction.sender_balance_after x;
     Transaction.receiver_balance_before := Transaction.receiver_balance_before x;
     Transaction.receiver_balance_after := Transaction.receiver_balance_after x |}.

(** [Transaction.save], lines 222-226: an object without a
    [transaction_id] is given one before it is written. *)
Definition Transaction_with_id (env : Env) (x : Transaction.t) : Transaction.t :=
  if String.eqb (Transaction.transaction_id x) EmptyString then
    {| Transaction.pk := Transaction.pk x;
       Transaction.transaction_id := "TXN" +:+ now_Ymd env +:+ uuid_hex8 env;
       Transaction.sender := Transaction.sender x;
       Transaction.receiver := Transaction.receiver x;
       Transaction.amount := Transaction.amount x;
       Transaction.description := Transaction.description x;
       Transaction.status := Transaction.status x;
       Transaction.created_at := Transaction.created_at x;
       Transaction.completed_at := Transaction.completed_at x;
       Transaction.failure_reason := Transaction.failure_reason x;
       Transaction.sender_balance_before := Transaction.sender_balance_before x;
       Transaction.sender_balance_after := Transaction.sender_balance_after x;
       Transaction.receiver_balance_before := Transaction.receiver_balance_before x;
       Transaction.receiver_balance_after := Transaction.receiver_balance_after x |}
  else x.

(** The call returns its pair; the caller's [transaction_obj], which the
    function assigns to, and the store are given with it.  The object is
    one read from the store: its row is the one at its [pk]. *)
Definition cancel_transaction (env : Env) (save_fault : option string)
    (transaction_obj : Transaction.t) (reason : string) (db : DB)
    : Outcome (bool * string) * Transaction.t * DB :=
  if negb (Status_eqb (Transaction.status transaction_obj) pending) then
    (Return (false, "Only pending transactions can be cancelled"), transaction_obj, db)
  else
    let transaction_obj :=
      Transaction_with_id env (Transaction_cancelled reason transaction_obj) in
    let r :=
      autocommit
        (try_except
           (save_autocommit save_fault
              (set_transactions <[Transaction.pk transaction_obj := transaction_obj]>) ;;
            ret (true, "Transaction cancelled successfully"))
           (λ e, ret (false, "Failed to cancel transaction: " +:+ e)))
        db in
    (fst r, transaction_obj, snd r).

(** ** [AuditService.get_user_activity] (lines 233-245) *)

(** [order_by('-created_at')] *)
Fixpoint insert_newest_first (x : AuditLog.t) (rows : list AuditLog.t)
    : list AuditLog.t :=
  match rows with
  | [] => [x]
  | y :: rest =>
      if datetime_leb (AuditLog.created_at y) (AuditLog.created_at x)
      then x :: y :: rest
      else y :: insert_newest_first x rest
  end.

Definition newest_first (rows : list AuditLog.t) : list AuditLog.t :=
  foldr insert_newest_first [] rows.

(** [AuditLog.objects.filter(user=user).order_by('-created_at')[:limit]];
    a queryset refuses a negative bound. *)
Definition get_user_activity (db : DB) (user : Z) (limit : Z)
    : Outcome (list AuditLog.t) :=
  if limit <? 0 then Raise "Negative indexing is not supported."
  else
    Return (take (Z.to_nat limit)
              (newest_first
                 (List.filter (λ entry, AuditLog.user entry =? user) (audit_logs db)))).

(** ** [AccountService.deactivate_account] and [update_daily_limit]
    (lines 272-331) *)

Definition BankAccount_with_is_active (b : bool) (a : BankAccount.t) : BankAccount.t :=
  {| BankAccount.pk := BankAccount.pk a; BankAccount.user := BankAccount.user a;
     BankAccount.account_number := BankAccount.account_number a;
     BankAccount.balance := BankAccount.balance a;
     BankAccount.is_active := b;
     BankAccount.daily_transfer_limit := BankAccount.daily_transfer_limit a |}.

Definition BankAccount_with_daily_transfer_limit (l : Z) (a : BankAccount.t)
    : BankAccount.t :=
  {| BankAccount.pk := BankAccount.pk a; BankAccount.user := BankAccount.user a;
     BankAccount.account_number := BankAccount.account_number a;
     BankAccount.balance := BankAccount.balance a;
     BankAccount.is_active := BankAccount.is_active a;
     BankAccount.daily_transfer_limit := l |}.

(** [account.save()] writes every field of the caller's object to the row
    of its primary key. *)
Definition deactivate_account (env : Env) (save_fault : option string)
    (account : BankAccount.t) (reason : string) (db : DB)
    : Outcome (bool * string) * BankAccount.t * DB :=
  let account := BankAccount_with_is_active false account in
  let r :=
    autocommit
      (try_except
         (save_autocommit save_fault
            (set_bank_accounts <[BankAccount.pk account := account]>) ;;
          log_action env (BankAccount.user account) "account_updated"
            ("Account deactivated. Reason: " +:+ reason) None (Some account) None ;;
          ret (true, "Account deactivated successfully"))
         (λ e, ret (false, "Failed to deactivate account: " +:+ e)))
      db in
  (fst r, account, snd r).

Definition update_daily_limit (env : Env) (save_fault : option string)
    (account : BankAccount.t) (new_limit : Z) (db : DB)
    : Outcome (bool * string) * BankAccount.t * DB :=
  let old_limit := BankAccount.daily_transfer_limit account in
  let account := BankAccount_with_daily_transfer_limit new_limit account in
  let r :=
    autocommit
      (try_except
         (save_autocommit save_fault
            (set_bank_accounts <[BankAccount.pk account := account]>) ;;
          log_action env (BankAccount.user account) "account_updated"
            ("Daily limit updated from " +:+ str_decimal old_limit +:+ " to "
             +:+ str_decimal new_limit)
            None (Some account) None ;;
          ret (true, "Daily limit updated successfully"))
         (λ e, ret (false, "Failed to update daily limit: " +:+ e)))
      db in
  (fst r, account, snd r).

(** ** [TransferMoneyForm] ([finance/forms.py], lines 138-234)

    What a [clean_<field>] method gives: the cleaned value, a
    [ValidationError] (by its message), or another exception, which the
    form does not catch. *)

Inductive Cleaned (A : Type) :=
| Valid (a : A)
| ValidationError (message : string)
| Crashed (e : string).
Arguments Valid {A} a.
Arguments ValidationError {A} message.
Arguments Crashed {A} e.

(** [BankAccount.objects.get(account_number=number, is_active=True)]:
    the one row that matches, [DoesNotExist] when there is none,
    [MultipleObjectsReturned] when there are several. *)
Inductive GetResult :=
| Found (a : BankAccount.t)
| NotFound
| Multiple.

Definition get_active_by_number (db : DB) (number : string) : GetResult :=
  match List.filter
          (λ kv : Z * BankAccount.t,
             String.eqb (BankAccount.account_number (snd kv)) number
             && BankAccount.is_active (snd kv))
          (map_to_list (bank_accounts db)) with
  | [] => NotFound
  | [kv] => Found (BankAccount.with_pk (fst kv) (snd kv))
  | _ => Multiple
  end.

(** [clean_receiver_account_number], lines 183-202: the account number it
    returns and the [receiver] it stores in [cleaned_data]. *)
Definition clean_receiver_account_number (db : DB) (sender : option BankAccount.t)
    (account_number : string) : Cleaned (string * BankAccount.t) :=
  match get_active_by_number db account_number with
  | NotFound => ValidationError "Receiver account not found or inactive"
  | Multiple => Crashed "MultipleObjectsReturned"
  | Found receiver =>
      match sender with
      | Some sender =>
          if BankAccount.pk receiver =? BankAccount.pk sender then
            ValidationError "Cannot transfer money to your own account"
          else Valid (account_number, receiver)
      | None => Valid (account_number, receiver)
      end
  end.

(** [clean_amount], lines 204-225. *)
Definition clean_amount (env : Env) (db : DB) (sender : option BankAccount.t)
    (amount : Z) : Cleaned Z :=
  match sender with
  | None => Valid amount
  | Some sender =>
      if negb (BankAccount.has_sufficient_balance sender amount) then
        ValidationError ("Insufficient balance. Your current balance is "
                         +:+ str_decimal (BankAccount.balance sender))
      else
        match fst (get_daily_transfer_total env sender (start db)) with
        | Raise e => Crashed e
        | Return daily_total =>
            if BankAccount.daily_transfer_limit sender <? daily_total + amount then
              let remaining := BankAccount.daily_transfer_limit sender - daily_total in
              ValidationError ("Daily transfer limit exceeded. You can transfer up to "
                               +:+ str_decimal remaining +:+ " more today.")
            else Valid amount
        end
  end.

(** ** [AccountUpdateForm] ([finance/forms.py], lines 237-263) *)

(** [clean_daily_transfer_limit], lines 256-263; the bounds 1,000 and
    10,000,000 in cents. *)
Definition clean_daily_transfer_limit (limit : Z) : Cleaned Z :=
  if limit <? 100000 then
    ValidationError "Daily transfer limit must be at least 1,000"
  else if 1000000000 <? limit then
    ValidationError "Daily transfer limit cannot exceed 10,000,000"
  else Valid limit.

(** ** The first application ([SparksFinance/finance])

    [models.py] and the view [transferMoney] of [views.py], lines 27-45.
    The view runs in autocommit mode and catches nothing, so an exception
    ends the request where it is raised, with what was written before it
    kept.

    [balance] and [amount] are [IntegerField]s, [name] and [receiver]
    [CharField(max_length=30)]: what the columns take depends on the
    database in use, which the source does not name. *)

Module Legacy.

Module CreateUser.
Record t := {
  email : string;
  name : string;
  branch : string;
  balance : Z;
  account : Z;
  gender : string
}.

Definition with_balance (b : Z) (u : t) : t :=
  {| email := email u; name := name u; branch := branch u; balance := b;
     account := account u; gender := gender u |}.
End CreateUser.

Module TransferMoney.
Record t := {
  name : string;
  amount : Z;
  receiver : string;
  date : datetime
}.
End TransferMoney.

Record Store := {
  users : gmap Z CreateUser.t;
  transfers : list TransferMoney.t
}.

(** The database in use: the range of an integer column
    ([connection.ops.integer_field_range]: 32 bits on PostgreSQL and MySQL,
    64 on SQLite); whether a [varchar(30)] column refuses a longer text
    (PostgreSQL and MySQL do, SQLite does not); and whether an [UPDATE]
    whose arithmetic leaves the range of the column is refused
    (PostgreSQL and MySQL) or stores a floating-point number (SQLite). *)
Record Backend := {
  integer_field_range : Z * Z;
  enforces_max_length : bool;
  refuses_overflow : bool
}.

Definition in_range (backend : Backend) (v : Z) : bool :=
  (fst (integer_field_range backend) <=? v)
  && (v <=? snd (integer_field_range backend)).

Definition fits_max_length (backend : Backend) (text : string) : bool :=
  negb (enforces_max_length backend) || (String.length text <=? 30)%nat.

(** [ValueRefused]: the exception of a statement given a value its column
    does not take ([DataError]; on SQLite the driver's [OverflowError]). *)
Inductive Exception := DoesNotExist | MultipleObjectsReturned | ValueRefused.

(** What the view answers: [redirect('Users')], or the exception that
    leaves it. *)
Inductive Response := Redirect (to : string) | Uncaught (e : Exception).

(** [CreateUser.objects.get(name=n)] *)
Definition get_by_name (m : gmap Z CreateUser.t) (n : string)
    : Exception + Z * CreateUser.t :=
  match List.filter (λ kv : Z * CreateUser.t, String.eqb (CreateUser.name (snd kv)) n)
          (map_to_list m) with
  | [] => inl DoesNotExist
  | [kv] => inr kv
  | _ => inl MultipleObjectsReturned
  end.

(** [q.balance = F('balance') + amount; q.save()]: the row keeps its other
    columns and its balance moves by [amount]. *)
Definition move_balance (k : Z) (q : CreateUser.t) (amount : Z)
    (m : gmap Z CreateUser.t) : gmap Z CreateUser.t :=
  <[k := CreateUser.with_balance (CreateUser.balance q + amount) q]> m.

(** The [INSERT] of line 33 goes through when every column takes its
    value. *)
Definition insert_accepted (backend : Backend) (name receiver : string) (amount : Z)
    : bool :=
  fits_max_length backend name && fits_max_length backend receiver
  && in_range backend amount.

(** The [POST] branch of [transferMoney], for a request whose [amount] is
    the decimal numeral of an integer.

    Line 33 inserts the record, unless a column refuses its value.  Lines
    37-38 and 40-41 have the database compute the new balance.  When that
    balance leaves the range of the column, a database that refuses the
    update raises; one that stores a floating-point number instead is not
    followed further, and the model gives [None]. *)
Definition transferMoney (backend : Backend) (now : datetime) (name receiver : string)
    (amount : Z) (db : Store) : option (Response * Store) :=
  if negb (insert_accepted backend name receiver amount)
  then Some (Uncaught ValueRefused, db)
  else
    let record :=
      {| TransferMoney.name := name; TransferMoney.amount := amount;
         TransferMoney.receiver := receiver; TransferMoney.date := now |} in
    let recorded := (transfers db ++ [record])%list in
    match get_by_name (users db) receiver with
    | inl e => Some (Uncaught e, {| users := users db; transfers := recorded |})
    | inr (k1, q1) =>
        if negb (in_range backend (CreateUser.balance q1 + amount)) then
          if refuses_overflow backend
          then Some (Uncaught ValueRefused, {| users := users db; transfers := recorded |})
          else None
        else
          let credited := move_balance k1 q1 amount (users db) in
          match get_by_name credited name with
          | inl e => Some (Uncaught e, {| users := credited; transfers := recorded |})
          | inr (k2, q2) =>
              if negb (in_range backend (CreateUser.balance q2 - amount)) then
                if refuses_overflow backend
                then Some (Uncaught ValueRefused,
                           {| users := credited; transfers := recorded |})
                else None
              else
                Some (Redirect "Users",
                      {| users := move_balance k2 q2 (- amount) credited;
                         transfers := recorded |})
          end
    end.

Definition total (m : gmap Z CreateUser.t) : Z :=
  map_fold (λ _ u acc, CreateUser.balance u + acc) 0 m.

(** PostgreSQL. *)
Definition postgresql : Backend :=
  {| integer_field_range := (-2147483648, 2147483647);
     enforces_max_length := true; refuses_overflow := true |}.

(** Two users of the first application. *)
Definition asha : CreateUser.t :=
  {| CreateUser.email := "a@example.com"; CreateUser.name := "Asha";
     CreateUser.branch := "Pune"; CreateUser.balance := 2000;
     CreateUser.account := 1001; CreateUser.gender := "F" |}.

Definition bilal : CreateUser.t :=
  {| CreateUser.email := "b@example.com"; CreateUser.name := "Bilal";
     CreateUser.branch := "Pune"; CreateUser.balance := 2000;
     CreateUser.account := 1002; CreateUser.gender := "M" |}.

Definition two_users : Store :=
  {| users := {[ 1 := asha; 2 := bilal ]}; transfers := [] |}.

End Legacy.

(** ** Invariants and example data of the further properties *)

(** Every account passes [BankAccount.clean]. *)
Definition accounts_clean (db : DB) : Prop :=
  ∀ k a, bank_accounts db !! k = Some a → BankAccount_clean a = Return tt.

(** Every transaction passes [Transaction.clean]. *)
Definition transactions_clean (db : DB) : Prop :=
  ∀ x, x ∈ transactions db → Transaction_clean x = Return tt.

(** The store passes the models' own validation: every account passes
    [BankAccount.clean] and every transaction [Transaction.clean]. *)
Definition store_clean (db : DB) : Prop :=
  accounts_clean db ∧ transactions_clean db.

(** [a] is at least as recent as [b]. *)
Definition at_least_as_recent (a b : AuditLog.t) : Prop :=
  datetime_le (AuditLog.created_at b) (AuditLog.created_at a).

(** A transaction left [pending] in the store. *)
Definition pending_transaction : Transaction.t :=
  {| Transaction.pk := 0;
     Transaction.transaction_id := "TXN202410051A2B3C4D";
     Transaction.sender := 1; Transaction.receiver := 2;
     Transaction.amount := 20000; Transaction.description := "rent";
     Transaction.status := pending;
     Transaction.created_at := {| date := 20000; time_of_day := 43200 |};
     Transaction.completed_at := None; Transaction.failure_reason := None;
     Transaction.sender_balance_before := Some 100000;
     Transaction.sender_balance_after := None;
     Transaction.receiver_balance_before := Some 50000;
     Transaction.receiver_balance_after := None |}.

Definition pending_db : DB :=
  {| bank_accounts := bank_accounts test_db;
     transactions := [pending_transaction]; audit_logs := [] |}.


(** * Properties *)

(** ** The store *)

Lemma total_balance_insert (m : gmap Z BankAccount.t) k a a' tx al tx' al' :
  m !! k = Some a →
  total_balance {| bank_accounts := <[k := a']> m; transactions := tx; audit_logs := al |}
  = total_balance {| bank_accounts := m; transactions := tx'; audit_logs := al' |}
    - BankAccount.balance a + BankAccount.balance a'.
Proof.
  intros Hk. unfold total_balance; cbn [bank_accounts].
  rewrite <- (insert_delete_id m k a Hk) at 2.
  rewrite <- (insert_delete_eq m k a').
  rewrite !map_fold_insert_L; try apply lookup_delete_eq; [lia | |]; intros; lia.
Qed.

Lemma update_last_row {A} (rows : list A) (x y : A) :
  <[length rows := y]> (rows ++ [x])%list = (rows ++ [y])%list.
Proof.
  rewrite insert_app_r_alt by lia. by rewrite Nat.sub_diag.
Qed.

Lemma debit_credit_sender db ps pr rs rr amount :
  ps ≠ pr →
  BankAccount.balance <$> debit_credit db ps pr rs rr amount !! ps
  = Some (BankAccount.balance rs - amount).
Proof.
  intros Hne. unfold debit_credit.
  rewrite lookup_insert_ne by congruence. by rewrite lookup_insert_eq.
Qed.

Lemma debit_credit_receiver db ps pr rs rr amount :
  BankAccount.balance <$> debit_credit db ps pr rs rr amount !! pr
  = Some (BankAccount.balance rr + amount).
Proof. unfold debit_credit. by rewrite lookup_insert_eq. Qed.

Lemma debit_credit_other db ps pr rs rr amount k :
  k ≠ ps → k ≠ pr →
  debit_credit db ps pr rs rr amount !! k = bank_accounts db !! k.
Proof.
  intros Hs Hr. unfold debit_credit. by rewrite !lookup_insert_ne by congruence.
Qed.

Lemma debit_credit_total db ps pr rs rr amount tx al :
  ps ≠ pr →
  bank_accounts db !! ps = Some rs →
  bank_accounts db !! pr = Some rr →
  total_balance {| bank_accounts := debit_credit db ps pr rs rr amount;
                   transactions := tx; audit_logs := al |}
  = total_balance db.
Proof.
  intros Hne Hs Hr. unfold debit_credit.
  erewrite (total_balance_insert _ pr rr _ tx al tx al)
    by (rewrite lookup_insert_ne by congruence; exact Hr).
  erewrite (total_balance_insert _ ps rs _ tx al (transactions db) (audit_logs db))
    by exact Hs.
  destruct db; cbn. lia.
Qed.

(** ** Running the body of [transfer_money] *)

Ltac run_body :=
  unfold transfer_money_body, transfer_money_try, can_transfer,
    get_daily_transfer_total,
    select_for_update_get, Transaction_objects_create, BankAccount_save,
    Transaction_save, log_action, try_except, bind, query, execute_write,
    ret, raise, start;
  cbn [needs_rollback working committed locks id].

Ltac split_cases := repeat (case_match; simplify_eq/=).

Lemma log_action_returns env user action description related_transaction
    related_account request c :
  ∃ r c',
    log_action env user action description related_transaction related_account
      request c = (Return r, c').
Proof.
  unfold log_action, try_except, bind, execute_write, ret.
  destruct (needs_rollback c); [eauto |].
  destruct (faults env CreateAuditLog); eauto.
Qed.

Lemma transfer_money_body_returns env others sender receiver amount description
    request c :
  ∃ ok msg txn c',
    transfer_money_body env others sender receiver amount description request c
      = (Return (ok, msg, txn), c')
    ∧ (ok = true → ∃ t, txn = Some t ∧ Transaction.status t = completed)
    ∧ (ok = false → txn = None).
Proof.
  run_body. split_cases.
  all: do 4 eexists; split; [reflexivity |]; split; intros; simplify_eq; eauto.
Qed.

(** What a call that reports success has done by the time the atomic block
    ends. *)
Lemma transfer_success_effect env db sender receiver amount description request
    msg t c' :
  transfer_money_body env id sender receiver amount description request (start db)
    = (Return (true, msg, Some t), c') →
  ∃ rs rr,
    BankAccount.pk sender ≠ BankAccount.pk receiver
    ∧ bank_accounts db !! BankAccount.pk sender = Some rs
    ∧ bank_accounts db !! BankAccount.pk receiver = Some rr
    ∧ 0 < amount ≤ BankAccount.balance rs
    ∧ Transaction.amount t = amount
    ∧ Transaction.status t = completed
    ∧ Transaction.sender_balance_before t = Some (BankAccount.balance rs)
    ∧ Transaction.sender_balance_after t = Some (BankAccount.balance rs - amount)
    ∧ Transaction.receiver_balance_before t = Some (BankAccount.balance rr)
    ∧ Transaction.receiver_balance_after t = Some (BankAccount.balance rr + amount)
    ∧ committed c' = db
    ∧ bank_accounts (working c')
      = debit_credit db (BankAccount.pk sender) (BankAccount.pk receiver) rs rr amount
    ∧ transactions (working c') = (transactions db ++ [t])%list
    ∧ locks c' = [BankAccount.pk sender; BankAccount.pk receiver]
    ∧ needs_rollback c'
      = match faults env CreateAuditLog with
        | Some f => marks_rollback f
        | None => false
        end.
Proof.
  run_body. intros H. split_cases.
  all: do 2 eexists; repeat split; try eassumption; try reflexivity.
  all: try (by apply Z.eqb_neq); try lia; try apply update_last_row.
Qed.

Ltac bools_to_Z :=
  unfold BankAccount.has_sufficient_balance in *;
  repeat match goal with
  | H : negb _ = true |- _ => apply negb_true_iff in H
  | H : negb _ = false |- _ => apply negb_false_iff in H
  | H : (_ =? _) = true |- _ => apply Z.eqb_eq in H
  | H : (_ =? _) = false |- _ => apply Z.eqb_neq in H
  | H : (_ <=? _) = true |- _ => apply Z.leb_le in H
  | H : (_ <=? _) = false |- _ => apply Z.leb_gt in H
  | H : (_ <? _) = true |- _ => apply Z.ltb_lt in H
  | H : (_ <? _) = false |- _ => apply Z.ltb_ge in H
  end.

(** The result and the store of a call, from the run of its body. *)
Lemma transfer_money_unfold env db sender receiver amount description request :
  transfer_money env db sender receiver amount description request
  = match faults env EnterAtomic with
    | Some f => (Raise (fault_text f), db)
    | None =>
        atomic_exit env
          (transfer_money_body env id sender receiver amount description request
             (start db))
    end.
Proof. reflexivity. Qed.

(** A call that returns has entered its block, run its body to that
    value, and left the block by a rollback or by a [COMMIT] that went
    through. *)
Lemma returned_inv env db sender receiver amount description request v :
  fst (transfer_money env db sender receiver amount description request) = Return v →
  ∃ c',
    transfer_money_body env id sender receiver amount description request (start db)
    = (Return v, c')
    ∧ snd (transfer_money env db sender receiver amount description request)
      = (if needs_rollback c' then committed c' else working c').
Proof.
  rewrite transfer_money_unfold.
  destruct (faults env EnterAtomic); [discriminate |].
  unfold atomic_exit.
  destruct (transfer_money_body _ _ _ _ _ _ _ _) as [[a | e] c']; [| discriminate].
  destruct (needs_rollback c') eqn:Hnr; cbn;
    [intros [= ->]; exists c'; by rewrite Hnr |].
  destruct (faults env Commit); cbn; [discriminate |].
  intros [= ->]. exists c'. by rewrite Hnr.
Qed.

(** ** Rejections before any write *)

Lemma rejected_body env db sender receiver amount description request :
  rejected env db sender receiver amount →
  ∃ msg c',
    transfer_money_body env id sender receiver amount description request (start db)
    = (Return (false, msg, None), c')
    ∧ needs_rollback c' = false ∧ committed c' = db ∧ working c' = db.
Proof.
  intros Hrej. run_body. unfold rejected in Hrej.
  split_cases; try (do 2 eexists; split; [reflexivity | by repeat split]).
  all: exfalso; bools_to_Z; destruct Hrej as [?|[?|[?|[?|[?|[?|[?|(? & ? & ?)]]]]]]];
    simplify_eq; try congruence; try lia.
Qed.

(** A rejected call leaves the store as it was, also when the block
    cannot be entered or committed. *)
Lemma rejected_store_unchanged env db sender receiver amount description request :
  rejected env db sender receiver amount →
  snd (transfer_money env db sender receiver amount description request) = db.
Proof.
  intros Hrej. rewrite transfer_money_unfold.
  destruct (faults env EnterAtomic); [reflexivity |].
  destruct (rejected_body env db sender receiver amount description request Hrej)
    as (msg & c' & -> & Hnr & Hc & Hw).
  unfold atomic_exit. rewrite Hnr.
  by destruct (faults env Commit).
Qed.

Lemma rejected_no_mutation env db sender receiver amount description request :
  faults env EnterAtomic = None →
  faults env Commit = None →
  rejected env db sender receiver amount →
  ∃ msg,
    transfer_money env db sender receiver amount description request
    = (Return (false, msg, None), db).
Proof.
  intros Henter Hcommit Hrej. rewrite transfer_money_unfold, Henter.
  destruct (rejected_body env db sender receiver amount description request Hrej)
    as (msg & c' & -> & Hnr & Hc & Hw).
  unfold atomic_exit. rewrite Hnr, Hcommit, Hw. by exists msg.
Qed.

Lemma missing_receiver_rejected env db sender receiver amount description request :
  faults env EnterAtomic = None →
  faults env Commit = None →
  bank_accounts db !! BankAccount.pk receiver = None →
  ∃ msg,
    transfer_money env db sender receiver amount description request
    = (Return (false, msg, None), db).
Proof.
  intros Henter Hcommit H. apply rejected_no_mutation; [done | done |].
  unfold rejected. tauto.
Qed.

(** Without a failing write, every call that reports failure leaves the
    store as it was. *)
Lemma failure_without_fault_no_mutation env db sender receiver amount description
    request msg txn :
  (∀ op, faults env op = None) →
  fst (transfer_money env db sender receiver amount description request)
    = Return (false, msg, txn) →
  snd (transfer_money env db sender receiver amount description request) = db.
Proof.
  intros Hnf. rewrite transfer_money_unfold. unfold atomic_exit.
  run_body. rewrite !Hnf. split_cases; intros; simplify_eq; reflexivity.
Qed.

(** ** Calls that go through *)

Lemma transfer_succeeds env db sender receiver amount description request rs rr :
  (∀ op, faults env op = None) →
  BankAccount.pk sender ≠ BankAccount.pk receiver →
  0 < amount →
  BankAccount.is_active sender = true →
  amount ≤ BankAccount.balance sender →
  daily_transfer_total env db sender + amount
    ≤ BankAccount.daily_transfer_limit sender →
  bank_accounts db !! BankAccount.pk sender = Some rs →
  bank_accounts db !! BankAccount.pk receiver = Some rr →
  amount ≤ BankAccount.balance rs →
  ∃ t db',
    transfer_money env db sender receiver amount description request
    = (Return (true,
               "Transfer successful! Transaction ID: " +:+ Transaction.transaction_id t,
               Some t), db')
    ∧ Transaction.status t = completed
    ∧ bank_accounts db'
      = debit_credit db (BankAccount.pk sender) (BankAccount.pk receiver) rs rr amount
    ∧ transactions db' = (transactions db ++ [t])%list.
Proof.
  intros Hnf Hne Hpos Hact Hbal Hlim Hs Hr Hfresh.
  rewrite transfer_money_unfold. unfold atomic_exit.
  run_body. rewrite !Hnf, Hact.
  apply Z.eqb_neq in Hne. rewrite Hne.
  replace (amount <=? 0) with false by (symmetry; apply Z.leb_gt; lia).
  unfold BankAccount.has_sufficient_balance.
  replace (amount <=? BankAccount.balance sender) with true
    by (symmetry; apply Z.leb_le; lia).
  cbn.
  replace (BankAccount.daily_transfer_limit sender
           <? daily_transfer_total env db sender + amount) with false
    by (symmetry; apply Z.ltb_ge; lia).
  cbn. rewrite Hs. cbn. rewrite Hr. cbn.
  replace (BankAccount.balance rs <? amount) with false
    by (symmetry; apply Z.ltb_ge; lia).
  cbn.
  match goal with
  | |- ∃ t db', (Return (_, _, Some ?x), ?d) = _ ∧ _ => exists x, d
  end.
  split; [reflexivity |]. cbn.
  repeat split. apply update_last_row.
Qed.

(** ** Conservation on the calls that report success *)

Section Success.
Variables (env : Env) (db : DB) (sender receiver : BankAccount.t)
          (amount : Z) (description : string) (request : option HttpRequest).
Variables (msg : string) (t : Transaction.t).

Let result := transfer_money env db sender receiver amount description request.

Hypothesis success : fst result = Return (true, msg, Some t).

Lemma success_snapshots :
  ∃ sender_before receiver_before,
    Transaction.sender_balance_before t = Some sender_before
    ∧ Transaction.sender_balance_after t = Some (sender_before - amount)
    ∧ Transaction.receiver_balance_before t = Some receiver_before
    ∧ Transaction.receiver_balance_after t = Some (receiver_before + amount)
    ∧ balance_of db (BankAccount.pk sender) = Some sender_before
    ∧ balance_of db (BankAccount.pk receiver) = Some receiver_before.
Proof using success.
  subst result. apply returned_inv in success as (c' & Hrun & _).
  apply transfer_success_effect in Hrun
    as (rs & rr & _ & Hs & Hr & _ & _ & _ & ? & ? & ? & ? & _).
  exists (BankAccount.balance rs), (BankAccount.balance rr).
  unfold balance_of. rewrite Hs, Hr. cbn. repeat split; assumption.
Qed.

Lemma success_total_balance :
  total_balance (snd result) = total_balance db.
Proof using success.
  subst result. apply returned_inv in success as (c' & Hrun & ->).
  apply transfer_success_effect in Hrun
    as (rs & rr & Hne & Hs & Hr & _ & _ & _ & _ & _ & _ & _ & Hc & Hw & _).
  destruct (needs_rollback c'); [by rewrite Hc |].
  destruct (working c') as [accs txs logs]. cbn in Hw. subst accs.
  by apply debit_credit_total.
Qed.

(** When the audit write did not mark the block, the block commits and
    the persisted balances are the [after] snapshots. *)
Lemma success_committed_balances :
  (∀ f, faults env CreateAuditLog = Some f → marks_rollback f = false) →
  balance_of (snd result) (BankAccount.pk sender)
    = Transaction.sender_balance_after t
  ∧ balance_of (snd result) (BankAccount.pk receiver)
    = Transaction.receiver_balance_after t
  ∧ transactions (snd result) = (transactions db ++ [t])%list.
Proof using success.
  intros Haudit.
  subst result. apply returned_inv in success as (c' & Hrun & ->).
  apply transfer_success_effect in Hrun
    as (rs & rr & Hne & Hs & Hr & _ & _ & _ & _ & Hsa & _ & Hra & Hc & Hw & Htx & _ & Hnr).
  rewrite Hnr.
  assert (match faults env CreateAuditLog with
          | Some f => marks_rollback f
          | None => false
          end = false) as ->.
  { destruct (faults env CreateAuditLog) eqn:E; [by apply Haudit | done]. }
  unfold balance_of. rewrite Hw, Hsa, Hra.
  rewrite debit_credit_sender by done. by rewrite debit_credit_receiver.
Qed.
End Success.

(** ** Exceptions and the body of [transfer_money] *)

Lemma exception_becomes_failure env others sender receiver amount description
    request c e c' :
  transfer_money_try env others sender receiver amount description request c
    = (Raise e, c') →
  transfer_money_body env others sender receiver amount description request c
    = (Return (false, "Transfer failed: " +:+ e, None), c').
Proof. unfold transfer_money_body, try_except. by intros ->. Qed.

(** When the block is entered and its [COMMIT], if one is issued, goes
    through, the call returns what its body returned. *)
Lemma transfer_money_concurrent_total env others db sender receiver amount
    description request :
  faults env EnterAtomic = None →
  faults env Commit = None →
  ∃ ok msg txn,
    fst (transfer_money_concurrent env others db sender receiver amount
           description request) = Return (ok, msg, txn)
    ∧ (ok = true → ∃ t, txn = Some t ∧ Transaction.status t = completed)
    ∧ (ok = false → txn = None).
Proof.
  intros Henter Hcommit. unfold transfer_money_concurrent, atomic. rewrite Henter.
  destruct (transfer_money_body_returns env others sender receiver amount
              description request (start db))
    as (ok & msg & txn & c' & -> & Hok & Hfail).
  exists ok, msg, txn. unfold atomic_exit. rewrite Hcommit.
  by destruct (needs_rollback c').
Qed.

(** A failing [save()] of lines 78-80 is never reported as a success. *)
Lemma save_fault_never_success env db sender receiver amount description request
    op f msg txn :
  op = SaveSender ∨ op = SaveReceiver ∨ op = SaveTransaction →
  faults env op = Some f →
  fst (transfer_money env db sender receiver amount description request)
    ≠ Return (true, msg, txn).
Proof.
  intros Hop Hf Hok. apply returned_inv in Hok as (c' & Hrun & _).
  revert Hrun. run_body. split_cases; try discriminate.
  all: destruct Hop as [-> | [-> | ->]]; congruence.
Qed.

(** ** Failing writes *)

Lemma database_error_in_save_rolls_back env db sender receiver amount description
    request op f :
  op = SaveSender ∨ op = SaveReceiver ∨ op = SaveTransaction →
  only_fault env op f →
  marks_rollback f = true →
  snd (transfer_money env db sender receiver amount description request) = db.
Proof.
  intros Hop Hf Hm. rewrite transfer_money_unfold. unfold atomic_exit.
  run_body. rewrite !Hf.
  destruct Hop as [-> | [-> | ->]]; cbn [StorageOp_eqb]; split_cases;
    try reflexivity; congruence.
Qed.

Lemma marked_audit_failure_rolls_back env db sender receiver amount description
    request f msg t :
  faults env CreateAuditLog = Some f →
  marks_rollback f = true →
  fst (transfer_money env db sender receiver amount description request)
    = Return (true, msg, Some t) →
  snd (transfer_money env db sender receiver amount description request) = db.
Proof.
  intros Hf Hm Hok. apply returned_inv in Hok as (c' & Hrun & ->).
  apply transfer_success_effect in Hrun
    as (rs & rr & _ & _ & _ & _ & _ & _ & _ & _ & _ & _ & Hc & _ & _ & _ & Hnr).
  rewrite Hf, Hm in Hnr. by rewrite Hnr.
Qed.

Section UnmarkedFault.
Variables (env : Env) (db : DB) (sender receiver : BankAccount.t)
          (amount : Z) (description : string) (request : option HttpRequest).
Variables (rs rr : BankAccount.t) (f : Fault).

Hypothesis unmarked : marks_rollback f = false.
Hypothesis distinct : BankAccount.pk sender ≠ BankAccount.pk receiver.
Hypothesis positive : 0 < amount.
Hypothesis active : BankAccount.is_active sender = true.
Hypothesis funded : amount ≤ BankAccount.balance sender.
Hypothesis within_limit :
  daily_transfer_total env db sender + amount
    ≤ BankAccount.daily_transfer_limit sender.
Hypothesis sender_row : bank_accounts db !! BankAccount.pk sender = Some rs.
Hypothesis receiver_row : bank_accounts db !! BankAccount.pk receiver = Some rr.
Hypothesis funded_row : amount ≤ BankAccount.balance rs.

Let r := transfer_money env db sender receiver amount description request.

Ltac reach_saves Hf :=
  subst r; rewrite transfer_money_unfold; unfold atomic_exit;
  run_body; rewrite !Hf, active; cbn [StorageOp_eqb];
  rewrite (proj2 (Z.eqb_neq _ _) distinct);
  replace (amount <=? 0) with false by (symmetry; apply Z.leb_gt; lia);
  unfold BankAccount.has_sufficient_balance;
  replace (amount <=? BankAccount.balance sender) with true
    by (symmetry; apply Z.leb_le; lia);
  cbn;
  replace (BankAccount.daily_transfer_limit sender
           <? daily_transfer_total env db sender + amount) with false
    by (symmetry; apply Z.ltb_ge; lia);
  cbn; rewrite sender_row; cbn; rewrite receiver_row; cbn;
  replace (BankAccount.balance rs <? amount) with false
    by (symmetry; apply Z.ltb_ge; lia);
  cbn; rewrite unmarked; cbn.

(** X7.  The fault of [test_atomic_transaction_rollback]: nothing was saved
    before [sender.save()], so committing the block changes no balance. *)
Lemma unmarked_sender_fault_keeps_balances :
  only_fault env SaveSender f →
  fst r = Return (false, "Transfer failed: " +:+ fault_text f, None)
  ∧ bank_accounts (snd r) = bank_accounts db
  ∧ ∃ t, transactions (snd r) = (transactions db ++ [t])%list
         ∧ Transaction.status t = failed
         ∧ Transaction.failure_reason t = Some (fault_text f).
Proof using All.
  intros Hf. reach_saves Hf.
  split; [reflexivity |]. split; [reflexivity |].
  eexists. rewrite update_last_row. split; [reflexivity |]. split; reflexivity.
Qed.

(** One statement later the debit of the sender has been saved, and is
    committed with the [failed] Transaction. *)
Lemma unmarked_receiver_fault_commits_debit :
  only_fault env SaveReceiver f →
  fst r = Return (false, "Transfer failed: " +:+ fault_text f, None)
  ∧ balance_of (snd r) (BankAccount.pk sender)
    = Some (BankAccount.balance rs - amount)
  ∧ balance_of (snd r) (BankAccount.pk receiver) = Some (BankAccount.balance rr)
  ∧ ∃ t, transactions (snd r) = (transactions db ++ [t])%list
         ∧ Transaction.status t = failed
         ∧ Transaction.failure_reason t = Some (fault_text f).
Proof using All.
  intros Hf. reach_saves Hf.
  split; [reflexivity |]. unfold balance_of. cbn.
  rewrite lookup_insert_eq. rewrite lookup_insert_ne by done. rewrite receiver_row.
  split; [reflexivity |]. split; [reflexivity |].
  eexists. rewrite update_last_row. split; [reflexivity |]. split; reflexivity.
Qed.
End UnmarkedFault.

(** ** Storage faults, audit failures and the checks under lock *)

(** C1 (the code departs from it).  A storage fault while the transfer is
    executed should leave the Transaction [failed] with its reason, both
    persisted balances as before, and report a failure.  The failure is
    reported, but: when [receiver.save()] raises without marking the
    block, the handler's return lets the block commit the debit of the
    sender without the credit of the receiver; and when a [save()] raises a
    database error, the block is rolled back as a whole, so that no
    Transaction record, [failed] or other, remains. *)
Theorem storage_fault_partial_transfer_or_lost_record :
  let r1 := transfer_money (env_with (fault_at SaveReceiver "Test error" false))
              test_db sender_account receiver_account 20000 "rent" None in
  let r2 := transfer_money (env_with (fault_at SaveSender "database is locked" true))
              test_db sender_account receiver_account 20000 "rent" None in
  (fst r1 = Return (false, "Transfer failed: Test error", None)
   ∧ balance_of test_db 1 = Some 100000
   ∧ balance_of (snd r1) 1 = Some 80000
   ∧ balance_of (snd r1) 2 = Some 50000
   ∧ (λ x, (Transaction.status x, Transaction.failure_reason x))
       <$> transactions (snd r1) = [(failed, Some "Test error")])
  ∧ (fst r2 = Return (false, "Transfer failed: " +:+ TransactionManagementError, None)
     ∧ balance_of (snd r2) 1 = Some 100000
     ∧ balance_of (snd r2) 2 = Some 50000
     ∧ transactions (snd r2) = []).
Proof. vm_compute. repeat split; reflexivity. Qed.

(** C2 (the code departs from it).  Every call that returns success
    should leave the persisted balances equal to the [after] snapshots.
    Here the request carries an [X-Forwarded-For] header whose first entry
    is no address, and the column refuses it: the audit write raises a
    database error, [log_action] swallows it, the call returns success
    with the snapshots 800.00 and 700.00, and the atomic block, marked by
    the error, is rolled back: the persisted balances are still 1000.00
    and 500.00. *)
Theorem success_returned_but_balances_not_persisted :
  let request :=
    {| META := {[ "HTTP_X_FORWARDED_FOR" := "unknown, 10.0.0.1" ]} |} in
  let r := transfer_money
             (env_with (fault_at CreateAuditLog "invalid input syntax for type inet" true))
             test_db sender_account receiver_account 20000 "rent" (Some request) in
  request_ip_address request = Some "unknown"
  ∧ ∃ msg t,
      fst r = Return (true, msg, Some t)
      ∧ Transaction.sender_balance_before t = Some 100000
      ∧ Transaction.sender_balance_after t = Some 80000
      ∧ Transaction.receiver_balance_before t = Some 50000
      ∧ Transaction.receiver_balance_after t = Some 70000
      ∧ balance_of (snd r) 1 = Some 100000
      ∧ balance_of (snd r) 2 = Some 50000.
Proof.
  vm_compute. split; [reflexivity |]. do 2 eexists. repeat split; reflexivity.
Qed.

(** C3 (the code departs from it).  After the locks are taken only the
    balance is checked again (line 52); the daily limit is checked once,
    before the locks, by [can_transfer] on the caller's object.  Two
    transfers of 60.00 from an account with a daily limit of 100.00 both
    pass that check against the same store; the second waits at its lock
    for the first to commit, then goes through: 120.00 sent in the day.
    Likewise a caller's object that still carries a limit of 100000.00
    sends 200.00 from a row whose limit is 50.00. *)
Theorem daily_limit_checked_only_before_locks :
  let sender := limited_sender in
  let db := store [sender; receiver_account] in
  let first_env := env_with no_fault in
  let second_env :=
    {| faults := no_fault; now := now first_env;
       now_Ymd := now_Ymd first_env; uuid_hex8 := "5E6F7A8B" |} in
  let first := λ d,
    snd (transfer_money first_env d sender receiver_account 6000 "rent" None) in
  let r := transfer_money_concurrent second_env first db sender receiver_account
             6000 "rent" None in
  let row := account 1 "SPF001" 100000 5000 true in
  let r' := transfer_money first_env (store [row; receiver_account])
              sender_account receiver_account 20000 "rent" None in
  ((∃ msg t, fst (transfer_money first_env db sender receiver_account 6000 "rent" None)
             = Return (true, msg, Some t))
   ∧ (∃ msg t, fst r = Return (true, msg, Some t))
   ∧ Transaction.status <$> transactions (snd r) = [completed; completed]
   ∧ daily_transfer_total second_env (snd r) sender = 12000
   ∧ BankAccount.daily_transfer_limit <$> bank_accounts (snd r) !! 1 = Some 10000)
  ∧ ((∃ msg t, fst r' = Return (true, msg, Some t))
     ∧ BankAccount.daily_transfer_limit <$> bank_accounts (snd r') !! 1 = Some 5000
     ∧ daily_transfer_total first_env (snd r') row = 20000).
Proof.
  vm_compute.
  split; [split; [| split; [| repeat split]] | split; [| repeat split]];
    try reflexivity; do 2 eexists; reflexivity.
Qed.

(** C4 (the code departs from it).  A transfer to an account that is not
    active should fail before any mutation.  [transfer_money] never looks
    at [receiver.is_active]: the transfer is completed, both balances
    change and a Transaction record is written. *)
Theorem inactive_receiver_is_credited :
  let receiver := account 2 "SPF002" 50000 10000000 false in
  let db := store [sender_account; receiver] in
  let r := transfer_money (env_with no_fault) db sender_account receiver
             20000 "rent" None in
  BankAccount.is_active <$> bank_accounts db !! 2 = Some false
  ∧ (∃ msg t, fst r = Return (true, msg, Some t))
  ∧ balance_of (snd r) 1 = Some 80000
  ∧ balance_of (snd r) 2 = Some 70000
  ∧ Transaction.status <$> transactions (snd r) = [completed].
Proof.
  vm_compute. split; [reflexivity |]. split; [do 2 eexists; reflexivity |].
  repeat split; reflexivity.
Qed.

(** ** The daily total *)

Lemma datetime_leb_le a b : datetime_leb a b = true ↔ datetime_le a b.
Proof.
  unfold datetime_leb, datetime_le.
  rewrite orb_true_iff, andb_true_iff, Z.ltb_lt, Z.eqb_eq, Z.leb_le. tauto.
Qed.

(** The rows the query selects are the rows that count: the start of the
    day that the code computes is midnight of the current date. *)
Lemma sent_today_counted env account x :
  0 ≤ time_of_day (Transaction.created_at x) →
  sent_today (replace_midnight (now env)) account x = true ↔ counted_today env account x.
Proof.
  intros Htime. unfold sent_today, counted_today.
  rewrite !andb_true_iff, Z.eqb_eq, datetime_leb_le.
  unfold datetime_le, replace_midnight. cbn [date time_of_day].
  destruct (Transaction.status x); cbn; intuition (try congruence; try lia).
Qed.

(** The sum the query computes is the sum of the amounts that count. *)
Lemma daily_transfer_total_counts env db account S :
  times_of_day_from_midnight db →
  same_day_completed_total env db account S →
  daily_transfer_total env db account = S.
Proof.
  unfold times_of_day_from_midnight, same_day_completed_total, daily_transfer_total.
  cbv zeta. intros Htimes Hsum.
  induction Hsum as [| x rows S Hx _ IH | x rows S Hx _ IH]; [reflexivity | |].
  - cbn [List.filter].
    apply (sent_today_counted env account x) in Hx as ->;
      [| apply Htimes; by left].
    cbn [Sum_amount foldr]. unfold Sum_amount in IH. rewrite IH; [reflexivity |].
    intros y Hy. apply Htimes. by right.
  - cbn [List.filter].
    destruct (sent_today _ account x) eqn:E.
    + apply sent_today_counted in E; [contradiction | apply Htimes; by left].
    + apply IH. intros y Hy. apply Htimes. by right.
Qed.

(** Every store has its sum of same-day completed transfers, and one only. *)
Lemma same_day_completed_total_defined env db account :
  ∃ S, same_day_completed_total env db account S.
Proof.
  unfold same_day_completed_total.
  induction (transactions db) as [| x rows [S IH]]; [exists 0; constructor |].
  destruct (Status_eq_dec (Transaction.status x) completed) as [Hst | Hst];
    [| exists S; apply add_up_skipped; [by intros (? & _) | done]].
  destruct (Z.eq_dec (Transaction.sender x) (BankAccount.pk account)) as [Hsd | Hsd];
    [| exists S; apply add_up_skipped; [by intros (_ & ? & _) | done]].
  destruct (Z_le_dec (date (now env)) (date (Transaction.created_at x))) as [Hd | Hd];
    [| exists S; apply add_up_skipped; [by intros (_ & _ & ?) | done]].
  exists (Transaction.amount x + S). by apply add_up_counted.
Qed.

Lemma same_day_completed_total_unique env db account S S' :
  same_day_completed_total env db account S →
  same_day_completed_total env db account S' →
  S = S'.
Proof.
  unfold same_day_completed_total. intros H. revert S'.
  induction H as [| x rows S Hx _ IH | x rows S Hx _ IH]; intros S' H';
    inversion H'; subst; try contradiction; [reflexivity | | by apply IH].
  f_equal. by apply IH.
Qed.

(** C5.  [S] is the sum of the amounts of the transactions with status
    [completed], this account as sender, and created on the current date
    or later.  With the other preconditions in place, a transfer with
    [S + amount] above the daily limit changes nothing in the store and,
    the atomic block entered and committed, is rejected with the message
    [Daily transfer limit exceeded. Limit: ..., Used: ...]; a transfer with
    [S + amount] within the limit passes the check of [can_transfer]. *)
Theorem daily_limit_enforced env db sender receiver amount description request S :
  BankAccount.pk sender ≠ BankAccount.pk receiver →
  0 < amount →
  BankAccount.is_active sender = true →
  amount ≤ BankAccount.balance sender →
  times_of_day_from_midnight db →
  same_day_completed_total env db sender S →
  (BankAccount.daily_transfer_limit sender < S + amount →
   snd (transfer_money env db sender receiver amount description request) = db
   ∧ (faults env EnterAtomic = None →
      faults env Commit = None →
      fst (transfer_money env db sender receiver amount description request)
      = Return (false,
                "Daily transfer limit exceeded. Limit: "
                +:+ str_decimal (BankAccount.daily_transfer_limit sender)
                +:+ ", Used: " +:+ str_decimal S,
                None)))
  ∧ (S + amount ≤ BankAccount.daily_transfer_limit sender →
     can_transfer env sender amount (start db)
     = (Return (true, "Transfer allowed"), start db)).
Proof.
  intros Hne Hpos Hact Hbal Htimes Hsum.
  apply daily_transfer_total_counts in Hsum as <-; [| exact Htimes].
  assert ((amount <=? 0) = false) as Hpos' by (apply Z.leb_gt; lia).
  assert ((amount <=? BankAccount.balance sender) = true) as Hbal'
    by (apply Z.leb_le; lia).
  split; intros Hlim.
  - split.
    + apply rejected_store_unchanged. unfold rejected. tauto.
    + intros Henter Hcommit.
      rewrite transfer_money_unfold, Henter. unfold atomic_exit. run_body.
      unfold BankAccount.has_sufficient_balance.
      apply Z.eqb_neq in Hne. rewrite Hne, Hpos', Hact, Hbal'. cbn.
      apply Z.ltb_lt in Hlim. rewrite Hlim. cbn. by rewrite Hcommit.
  - run_body. unfold BankAccount.has_sufficient_balance.
    rewrite Hpos', Hact, Hbal'. cbn.
    replace (_ <? _) with false by (symmetry; apply Z.ltb_ge; lia).
    reflexivity.
Qed.

Lemma daily_limit_enforced_witness :
  same_day_completed_total later_that_day sent_60_today limited_sender 6000
  ∧ snd (transfer_money later_that_day sent_60_today limited_sender receiver_account
           6000 "rent" None) = sent_60_today
  ∧ fst (transfer_money later_that_day sent_60_today limited_sender receiver_account
           6000 "rent" None)
    = Return (false, "Daily transfer limit exceeded. Limit: 100.00, Used: 60.00", None)
  ∧ can_transfer later_that_day limited_sender 4000 (start sent_60_today)
    = (Return (true, "Transfer allowed"), start sent_60_today).
Proof.
  assert (Hsum : same_day_completed_total later_that_day sent_60_today limited_sender
                   6000).
  { unfold same_day_completed_total.
    assert (∃ x, transactions sent_60_today = [x]
                 ∧ Transaction.status x = completed
                 ∧ Transaction.sender x = 1
                 ∧ Transaction.amount x = 6000
                 ∧ Transaction.created_at x = {| date := 20000; time_of_day := 43200 |})
      as (x & -> & Hst & Hsd & Ham & Hcr)
      by (eexists; vm_compute; repeat split; reflexivity).
    replace 6000 with (Transaction.amount x + 0) by (rewrite Ham; reflexivity).
    apply add_up_counted; [| apply add_up_nil].
    unfold counted_today. rewrite Hst, Hsd, Hcr. cbn. repeat split. lia. }
  assert (Htimes : times_of_day_from_midnight sent_60_today).
  { intros x Hx. apply list_elem_of_In in Hx. vm_compute in Hx.
    destruct Hx as [<- | []]. cbn. lia. }
  split; [exact Hsum |].
  destruct (daily_limit_enforced later_that_day sent_60_today limited_sender
              receiver_account 6000 "rent" None 6000) as [[Hdb Hmsg] _];
    [vm_compute; discriminate | lia | reflexivity | vm_compute; discriminate
    | exact Htimes | exact Hsum | cbn; lia |].
  split; [exact Hdb |]. split; [exact (Hmsg eq_refl eq_refl) |].
  apply (daily_limit_enforced later_that_day sent_60_today limited_sender
           receiver_account 4000 "rent" None 6000);
    [vm_compute; discriminate | lia | reflexivity | vm_compute; discriminate
    | exact Htimes | exact Hsum | cbn; lia].
Defined.

(** ** Lock order *)

Lemma locks_acquired_prefix env db sender receiver amount description request :
  locks_acquired env db sender receiver amount description request
    `prefix_of` [BankAccount.pk sender; BankAccount.pk receiver].
Proof.
  unfold locks_acquired. run_body. split_cases.
  all: try apply prefix_nil; try reflexivity.
  all: by eexists [_].
Qed.

(** C6 (fails as stated).  The rows are not locked in ascending order of
    their identifiers: a transfer from account 2 to account 1 locks row 2
    first, a transfer from 1 to 2 locks row 1 first, and the two orders form
    a circular wait. *)
Lemma locks_not_in_ascending_order :
  let forth := locks_acquired (env_with no_fault) test_db
                 sender_account receiver_account 20000 "rent" None in
  let back := locks_acquired (env_with no_fault) test_db
                receiver_account sender_account 20000 "rent" None in
  forth = [1; 2] ∧ back = [2; 1]
  ∧ ascending back = false
  ∧ circular_wait forth back = true.
Proof. vm_compute. repeat split; reflexivity. Qed.

(** C6 (amended).  Whenever a call locks two account rows, it has locked
    the sender's row first and the receiver's row second, whatever their
    identifiers. *)
Theorem locks_sender_then_receiver env db sender receiver amount description request :
  length (locks_acquired env db sender receiver amount description request) = 2%nat →
  locks_acquired env db sender receiver amount description request
  = [BankAccount.pk sender; BankAccount.pk receiver].
Proof.
  unfold locks_acquired. run_body. split_cases; cbn; intros; try discriminate.
  all: reflexivity.
Qed.

Lemma locks_sender_then_receiver_witness :
  length (locks_acquired (env_with no_fault) test_db receiver_account sender_account
            20000 "rent" None) = 2%nat
  ∧ locks_acquired (env_with no_fault) test_db receiver_account sender_account
      20000 "rent" None = [2; 1].
Proof.
  split; [vm_compute; reflexivity |].
  apply (locks_sender_then_receiver (env_with no_fault) test_db receiver_account
           sender_account 20000 "rent" None).
  vm_compute; reflexivity.
Defined.

(** ** Audit logging *)

(** An audit write that fails without marking the block costs nothing but
    the audit record. *)
Lemma unmarked_audit_failure_keeps_transfer :
  let r := transfer_money (env_with (fault_at CreateAuditLog "Test error" false))
             test_db sender_account receiver_account 20000 "rent" None in
  (∃ msg t, fst r = Return (true, msg, Some t))
  ∧ balance_of (snd r) 1 = Some 80000
  ∧ balance_of (snd r) 2 = Some 70000
  ∧ Transaction.status <$> transactions (snd r) = [completed]
  ∧ audit_logs (snd r) = [].
Proof.
  vm_compute. split; [do 2 eexists; reflexivity |]. repeat split; reflexivity.
Qed.

(** C7 (the code departs from it).  [log_action] never raises: a failed
    audit write gives [None].  But the write is made inside the atomic
    block of [transfer_money]; when it fails with a database error the
    block is marked, and although the call returns the completed
    Transaction, the block is rolled back: no Transaction record is kept
    and both balances are back to what they were. *)
Theorem audit_failure_undoes_completed_transfer :
  let env := env_with (fault_at CreateAuditLog "database is locked" true) in
  let r := transfer_money env test_db sender_account receiver_account
             20000 "rent" None in
  (∃ c', log_action env 1 "transaction_completed" "Transfer of 200.00"
           None None None (start test_db)
         = (Return None, c')
         ∧ needs_rollback c' = true)
  ∧ (∃ msg t, fst r = Return (true, msg, Some t) ∧ Transaction.status t = completed)
  ∧ transactions (snd r) = []
  ∧ balance_of (snd r) 1 = Some 100000
  ∧ balance_of (snd r) 2 = Some 50000.
Proof.
  vm_compute. split; [eexists; split; reflexivity |].
  split; [do 2 eexists; split; reflexivity |]. repeat split; reflexivity.
Qed.

(** ** Statements *)

Lemma elem_of_insert_by_created_at x y rows :
  y ∈ insert_by_created_at x rows ↔ y = x ∨ y ∈ rows.
Proof.
  induction rows as [| z rows IH]; cbn.
  - rewrite list_elem_of_singleton, elem_of_nil. tauto.
  - destruct (datetime_leb _ _); rewrite !elem_of_cons; [tauto |].
    rewrite IH. tauto.
Qed.

Lemma elem_of_order_by_created_at y rows :
  y ∈ order_by_created_at rows ↔ y ∈ rows.
Proof.
  induction rows as [| z rows IH]; cbn; [reflexivity |].
  rewrite elem_of_insert_by_created_at, elem_of_cons, IH. tauto.
Qed.

Lemma elem_of_List_filter {A} (f : A → bool) (l : list A) (x : A) :
  x ∈ List.filter f l ↔ x ∈ l ∧ f x = true.
Proof. rewrite !list_elem_of_In. apply filter_In. Qed.

(** What lines 124-152 compute once [Q] is taken from [django.db.models]:
    the completed transactions the account takes part in, within the
    bounds given, and their totals. *)
Lemma account_statement_rows db account date_from date_to x :
  x ∈ Statement.transactions (account_statement db account date_from date_to)
  ↔ x ∈ transactions db
    ∧ involves_completed account x = true
    ∧ (∀ d, date_from = Some d → datetime_le d (Transaction.created_at x))
    ∧ (∀ d, date_to = Some d → datetime_le (Transaction.created_at x) d).
Proof.
  unfold account_statement. cbn [Statement.transactions].
  destruct date_from as [f |], date_to as [u |];
    rewrite ?elem_of_List_filter, elem_of_order_by_created_at, elem_of_List_filter,
      ?datetime_leb_le.
  all: split;
    [ intros H; repeat split; try tauto; intros d Hd; inversion Hd; subst; tauto
    | intros (Hx & Hi & Hf & Hu); repeat split; auto ].
Qed.

Lemma account_statement_totals db account date_from date_to :
  let s := account_statement db account date_from date_to in
  Statement.sent_total s
    = Sum_amount (List.filter (λ x, Transaction.sender x =? BankAccount.pk account)
                    (Statement.transactions s))
  ∧ Statement.received_total s
    = Sum_amount (List.filter (λ x, Transaction.receiver x =? BankAccount.pk account)
                    (Statement.transactions s))
  ∧ Statement.net_change s = Statement.received_total s - Statement.sent_total s
  ∧ Statement.closing_balance s = BankAccount.balance account
  ∧ Statement.opening_balance s = BankAccount.balance account - Statement.net_change s.
Proof. cbn. repeat split; reflexivity. Qed.

(** C8 (the code departs from it).  [get_account_statement] returns no
    statement: line 125 looks [Q] up in [django.db.transaction], which has
    no such name, so every call raises [AttributeError] before a query is
    made. *)
Theorem get_account_statement_raises db account date_from date_to :
  get_account_statement db account date_from date_to
  = Raise "module 'django.db.transaction' has no attribute 'Q'".
Proof. reflexivity. Qed.

(** ** Account numbers *)

Lemma account_number_exists_false db n :
  account_number_exists db n = false →
  ∀ k a, bank_accounts db !! k = Some a → BankAccount.account_number a ≠ n.
Proof.
  unfold account_number_exists. intros Hex k a Hk Heq.
  assert (existsb (λ kv : Z * BankAccount.t,
                     String.eqb (BankAccount.account_number (snd kv)) n)
            (map_to_list (bank_accounts db)) = true) as Htrue; [| congruence].
  apply existsb_exists. exists (k, a). split.
  - apply list_elem_of_In, elem_of_map_to_list, Hk.
  - cbn. by apply String.eqb_eq.
Qed.

Lemma generate_from_first_free db draws n :
  ∀ fuel i,
    (n < fuel)%nat →
    (∀ j, (j < n)%nat → account_number_exists db (candidate (draws (i + j)%nat)) = true) →
    account_number_exists db (candidate (draws (i + n)%nat)) = false →
    generate_account_number_from fuel db draws i = Some (candidate (draws (i + n)%nat)).
Proof.
  induction n as [| n IH]; intros fuel i Hfuel Hbusy Hfree.
  - destruct fuel as [| fuel]; [lia |]. cbn [generate_account_number_from].
    rewrite Nat.add_0_r in *. by rewrite Hfree.
  - destruct fuel as [| fuel]; [lia |]. cbn [generate_account_number_from].
    pose proof (Hbusy 0%nat (Nat.lt_0_succ _)) as H0.
    rewrite Nat.add_0_r in H0. rewrite H0.
    replace (i + S n)%nat with (S i + n)%nat in * by lia.
    apply IH; [lia | | exact Hfree].
    intros j Hj. replace (S i + j)%nat with (i + S j)%nat by lia.
    apply Hbusy. lia.
Qed.

Lemma generate_from_all_busy db draws fuel :
  ∀ i,
    (∀ j, (j < fuel)%nat → account_number_exists db (candidate (draws (i + j)%nat)) = true) →
    generate_account_number_from fuel db draws i = None.
Proof.
  induction fuel as [| fuel IH]; intros i Hbusy; [reflexivity |].
  cbn [generate_account_number_from].
  pose proof (Hbusy 0%nat (Nat.lt_0_succ _)) as H0.
  rewrite Nat.add_0_r in H0. rewrite H0.
  apply IH. intros j Hj. replace (S i + j)%nat with (i + S j)%nat by lia.
  apply Hbusy. lia.
Qed.

(** Whatever the loop returns is a candidate it drew that no account has. *)
Lemma generate_from_sound db draws fuel :
  ∀ i number,
    generate_account_number_from fuel db draws i = Some number →
    account_number_exists db number = false
    ∧ ∃ j, number = candidate (draws j).
Proof.
  induction fuel as [| fuel IH]; intros i number; [discriminate |].
  cbn [generate_account_number_from].
  destruct (account_number_exists db (candidate (draws i))) eqn:E.
  - apply IH.
  - intros [= <-]. eauto.
Qed.

(** C9 (fails as stated).  The loop has no bound on its turns: while the
    candidates drawn are taken, it goes on, and it has returned nothing
    after any number of turns. *)
Lemma generate_account_number_unbounded :
  ¬ ∃ fuel number,
      generate_account_number fuel taken_number_db same_draw_forever = Some number.
Proof.
  intros (fuel & number & H). unfold generate_account_number in H.
  rewrite generate_from_all_busy in H; [discriminate |].
  intros j _. vm_compute. reflexivity.
Qed.

(** C9 (amended).  The loop returns the first candidate drawn that no
    account has, at the turn where it is drawn and not before; the number
    returned is not in the store. *)
Theorem generate_account_number_first_free db draws n fuel :
  (∀ j, (j < n)%nat → account_number_exists db (candidate (draws j)) = true) →
  account_number_exists db (candidate (draws n)) = false →
  (n < fuel)%nat →
  generate_account_number fuel db draws = Some (candidate (draws n))
  ∧ generate_account_number n db draws = None
  ∧ ∀ k a, bank_accounts db !! k = Some a →
           BankAccount.account_number a ≠ candidate (draws n).
Proof.
  intros Hbusy Hfree Hfuel. unfold generate_account_number. repeat split.
  - apply (generate_from_first_free db draws n fuel 0%nat); auto.
  - apply generate_from_all_busy. auto.
  - by apply account_number_exists_false.
Qed.

Lemma generate_account_number_first_free_witness :
  generate_account_number 5 taken_number_db second_draw_free = Some "SPF24100500000001"
  ∧ generate_account_number 1 taken_number_db second_draw_free = None
  ∧ ∀ k a, bank_accounts taken_number_db !! k = Some a →
           BankAccount.account_number a ≠ "SPF24100500000001".
Proof.
  apply (generate_account_number_first_free taken_number_db second_draw_free 1 5).
  - intros j Hj. assert (j = 0%nat) as -> by lia. vm_compute. reflexivity.
  - vm_compute. reflexivity.
  - lia.
Defined.

(** When the atomic block is entered and committed, [transfer_money]
    returns a triple: a flag, a message, and the Transaction, which is
    present and [completed] when the flag is [True] and absent when it is
    [False]; an exception raised inside its [try] block comes back as
    [(False, "Transfer failed: ...", None)]. *)
Lemma transfer_money_total env db sender receiver amount description request :
  faults env EnterAtomic = None →
  faults env Commit = None →
  (∃ ok msg txn,
     fst (transfer_money env db sender receiver amount description request)
       = Return (ok, msg, txn)
     ∧ match txn with
       | Some t => ok = true ∧ Transaction.status t = completed
       | None => ok = false
       end)
  ∧ (∀ e c',
       transfer_money_try env id sender receiver amount description request
         (start db) = (Raise e, c') →
       fst (transfer_money env db sender receiver amount description request)
         = Return (false, "Transfer failed: " +:+ e, None)).
Proof.
  intros Henter Hcommit. rewrite transfer_money_unfold, Henter. unfold atomic_exit.
  split.
  - destruct (transfer_money_body_returns env id sender receiver amount description
                request (start db)) as (ok & msg & txn & c' & -> & Hok & Hfail).
    exists ok, msg, txn. rewrite Hcommit.
    split; [by destruct (needs_rollback c') |].
    destruct ok.
    + destruct (Hok eq_refl) as (t & -> & Ht). auto.
    + by rewrite (Hfail eq_refl).
  - intros e c' Hraise.
    rewrite (exception_becomes_failure _ _ _ _ _ _ _ _ _ _ Hraise), Hcommit.
    by destruct (needs_rollback c').
Qed.

(** C10 (the code departs from it).  [transfer_money] should return a
    triple for every input and let no exception reach its caller.  The
    [try] of lines 34-109 turns every exception of the body into
    [(False, "Transfer failed: ...", None)], but the decorator of line 19
    works outside it: here the body has returned its success triple with
    the completed Transaction, the [COMMIT] of the block fails, and the
    database error is raised to the caller, the transfer rolled back.
    Likewise an error on entering the block reaches the caller before the
    body is run.  With the block entered and committed the claim holds for
    every input and every failing write. *)
Theorem failing_commit_reaches_the_caller :
  let committing := env_with (fault_at Commit "database is locked" true) in
  let entering := env_with (fault_at EnterAtomic "unable to open database file" true) in
  (∃ msg t c',
     transfer_money_body committing id sender_account receiver_account 20000 "rent"
       None (start test_db) = (Return (true, msg, Some t), c')
     ∧ Transaction.status t = completed)
  ∧ transfer_money committing test_db sender_account receiver_account 20000 "rent" None
    = (Raise "database is locked", test_db)
  ∧ transfer_money entering test_db sender_account receiver_account 20000 "rent" None
    = (Raise "unable to open database file", test_db)
  ∧ ∀ env db sender receiver amount description request,
      faults env EnterAtomic = None →
      faults env Commit = None →
      ∃ ok msg txn,
        fst (transfer_money env db sender receiver amount description request)
          = Return (ok, msg, txn)
        ∧ match txn with
          | Some t => ok = true ∧ Transaction.status t = completed
          | None => ok = false
          end.
Proof.
  cbv zeta. split; [| split; [| split]].
  - vm_compute. do 3 eexists. split; reflexivity.
  - vm_compute. reflexivity.
  - vm_compute. reflexivity.
  - intros env db sender receiver amount description request Henter Hcommit.
    exact (proj1 (transfer_money_total env db sender receiver amount description
                    request Henter Hcommit)).
Qed.

(** * Further properties *)

(** ** What [transfer_money] keeps *)

Lemma BankAccount_clean_ok a :
  BankAccount_clean a = Return tt
  ↔ 0 ≤ BankAccount.balance a ∧ 0 ≤ BankAccount.daily_transfer_limit a.
Proof.
  unfold BankAccount_clean.
  destruct (BankAccount.balance a <? 0) eqn:Eb;
    destruct (BankAccount.daily_transfer_limit a <? 0) eqn:El;
    bools_to_Z; split; try discriminate; try lia; intros; reflexivity.
Qed.

Lemma accounts_clean_insert (m : gmap Z BankAccount.t) k a :
  (∀ k' a', m !! k' = Some a' → BankAccount_clean a' = Return tt) →
  BankAccount_clean a = Return tt →
  ∀ k' a', <[k := a]> m !! k' = Some a' → BankAccount_clean a' = Return tt.
Proof.
  intros Hm Ha k' a'.
  rewrite lookup_insert. case_decide; [by intros [= <-] | apply Hm].
Qed.

Lemma accounts_stay_clean env db sender receiver amount description
    request :
  accounts_clean db →
  accounts_clean (snd (transfer_money env db sender receiver amount description request)).
Proof.
  intros Hclean. rewrite transfer_money_unfold. unfold atomic_exit.
  run_body. split_cases; try exact Hclean.
  all: bools_to_Z.
  all: repeat match goal with
       | H : bank_accounts _ !! _ = Some _ |- _ =>
           apply Hclean in H; apply BankAccount_clean_ok in H
       end.
  all: match goal with d : DB |- _ => destruct d as [accs txs logs] end.
  all: unfold accounts_clean, set_transactions, set_bank_accounts, set_audit_logs in *;
    cbn in *.
  all: repeat (apply accounts_clean_insert; [| apply BankAccount_clean_ok; cbn; lia]).
  all: exact Hclean.
Qed.

Lemma transactions_clean_snoc rows x :
  (∀ y, y ∈ rows → Transaction_clean y = Return tt) →
  Transaction_clean x = Return tt →
  ∀ y, y ∈ (rows ++ [x])%list → Transaction_clean y = Return tt.
Proof.
  intros Hrows Hx y [Hy | Hy%list_elem_of_singleton]%elem_of_app; [by apply Hrows | by subst].
Qed.

Lemma transactions_stay_clean env db sender receiver amount description request :
  transactions_clean db →
  transactions_clean
    (snd (transfer_money env db sender receiver amount description request)).
Proof.
  intros Hclean. rewrite transfer_money_unfold. unfold atomic_exit.
  run_body. split_cases; try exact Hclean.
  all: match goal with d : DB |- _ => destruct d as [accs txs logs] end.
  all: unfold transactions_clean, set_transactions, set_bank_accounts, set_audit_logs in *;
    cbn [transactions] in *.
  all: rewrite ?update_last_row.
  all: apply transactions_clean_snoc; [exact Hclean |].
  all: unfold Transaction_clean; cbn.
  all: repeat match goal with H : (_ =? _) = false |- _ => rewrite H end.
  all: repeat match goal with H : (_ <=? _) = false |- _ => rewrite H end.
  all: reflexivity.
Qed.

(** X1.  Whatever the outcome of a call, a store in which every account
    passes [BankAccount.clean] and every transaction [Transaction.clean]
    is still such a store after it. *)
Theorem transfer_money_keeps_store_clean env db sender receiver amount description
    request :
  store_clean db →
  store_clean (snd (transfer_money env db sender receiver amount description request)).
Proof.
  intros [Ha Ht]. split.
  - by apply accounts_stay_clean.
  - by apply transactions_stay_clean.
Qed.

Lemma transfer_money_keeps_store_clean_witness :
  store_clean test_db
  ∧ store_clean
      (snd (transfer_money (env_with (fault_at SaveReceiver "Test error" false))
              test_db sender_account receiver_account 20000 "rent" None)).
Proof.
  assert (H : store_clean test_db).
  { split.
    - intros k a Hk. apply elem_of_map_to_list, list_elem_of_In in Hk.
      vm_compute in Hk. destruct Hk as [[= <- <-] | [[= <- <-] | []]]; reflexivity.
    - intros x Hx. vm_compute in Hx. by apply elem_of_nil in Hx. }
  split; [exact H |].
  by apply (transfer_money_keeps_store_clean
              (env_with (fault_at SaveReceiver "Test error" false)) test_db
              sender_account receiver_account 20000 "rent" None).
Defined.

Lemma field_kept_by_insert {B} (f : BankAccount.t → B) (m : gmap Z BankAccount.t)
    k row a :
  m !! k = Some row →
  f a = f row →
  ∀ k', f <$> <[k := a]> m !! k' = f <$> m !! k'.
Proof.
  intros Hk Hf k'. rewrite lookup_insert. case_decide; [| done].
  subst. by rewrite Hk; cbn; rewrite Hf.
Qed.

Ltac frame_accounts :=
  intros;
  repeat match goal with
  | |- context [<[?k := _]> _ !! ?k'] =>
      first
        [ rewrite (lookup_insert_ne _ k k') by congruence
        | erewrite (field_kept_by_insert _ _ k);
            [| rewrite ?lookup_insert_ne by congruence; eassumption | reflexivity] ]
  end;
  try reflexivity.

(** X2.  On every path, failing writes included, a call touches no account
    but the sender's and the receiver's, changes no [is_active], daily
    limit or account number, keeps the earlier transactions and audit
    entries in place, and adds at most one of each. *)
Theorem transfer_money_frame env db sender receiver amount description request :
  let db' := snd (transfer_money env db sender receiver amount description request) in
  (∀ k, k ≠ BankAccount.pk sender → k ≠ BankAccount.pk receiver →
        bank_accounts db' !! k = bank_accounts db !! k)
  ∧ (∀ k, BankAccount.is_active <$> bank_accounts db' !! k
          = BankAccount.is_active <$> bank_accounts db !! k)
  ∧ (∀ k, BankAccount.daily_transfer_limit <$> bank_accounts db' !! k
          = BankAccount.daily_transfer_limit <$> bank_accounts db !! k)
  ∧ (∀ k, BankAccount.account_number <$> bank_accounts db' !! k
          = BankAccount.account_number <$> bank_accounts db !! k)
  ∧ transactions db `prefix_of` transactions db'
  ∧ (length (transactions db') ≤ S (length (transactions db)))%nat
  ∧ audit_logs db `prefix_of` audit_logs db'
  ∧ (length (audit_logs db') ≤ S (length (audit_logs db)))%nat.
Proof.
  cbv zeta. rewrite transfer_money_unfold. unfold atomic_exit.
  run_body. split_cases.
  all: bools_to_Z.
  all: unfold set_transactions, set_bank_accounts, set_audit_logs; cbn.
  all: rewrite ?update_last_row, ?length_app; cbn.
  all: repeat split; try reflexivity; try lia; try (by eexists); try frame_accounts.
Qed.

(** ** When a transfer goes through *)

(** X3.  When no write fails, a call reports success exactly when none of
    the checks of lines 36-53 rejects it. *)
Theorem transfer_goes_through_iff_not_rejected env db sender receiver amount
    description request :
  (∀ op, faults env op = None) →
  (∃ msg t,
     fst (transfer_money env db sender receiver amount description request)
       = Return (true, msg, Some t))
  ↔ ¬ rejected env db sender receiver amount.
Proof.
  intros Hnf. split.
  - intros (msg & t & Hok) Hrej.
    destruct (rejected_no_mutation env db sender receiver amount description request
                (Hnf _) (Hnf _) Hrej) as (msg' & Heq).
    rewrite Heq in Hok. discriminate.
  - intros Hnot. unfold rejected in Hnot.
    destruct (bank_accounts db !! BankAccount.pk sender) as [rs |] eqn:Hs; [| tauto].
    destruct (bank_accounts db !! BankAccount.pk receiver) as [rr |] eqn:Hr; [| tauto].
    destruct (BankAccount.is_active sender) eqn:Hact; [| tauto].
    assert (BankAccount.pk sender ≠ BankAccount.pk receiver) by tauto.
    assert (0 < amount) by lia.
    assert (amount ≤ BankAccount.balance sender) by lia.
    assert (daily_transfer_total env db sender + amount
            ≤ BankAccount.daily_transfer_limit sender) by lia.
    assert (amount ≤ BankAccount.balance rs).
    { destruct (Z_le_gt_dec amount (BankAccount.balance rs)); [done |].
      exfalso. apply Hnot. do 7 right. exists rs. split; [done | lia]. }
    destruct (transfer_succeeds env db sender receiver amount description request rs rr)
      as (t & db' & Heq & _); auto.
    rewrite Heq. eauto.
Qed.

Lemma transfer_goes_through_iff_not_rejected_witness :
  (∃ msg t,
     fst (transfer_money (env_with no_fault) test_db sender_account receiver_account
            20000 "rent" None) = Return (true, msg, Some t))
  ↔ ¬ rejected (env_with no_fault) test_db sender_account receiver_account 20000.
Proof.
  apply (transfer_goes_through_iff_not_rejected (env_with no_fault) test_db
           sender_account receiver_account 20000 "rent" None).
  intros op. reflexivity.
Defined.

(** ** The day's total after a call *)

Lemma Sum_amount_filter_snoc (f : Transaction.t → bool) rows x :
  Sum_amount (List.filter f (rows ++ [x]))
  = Sum_amount (List.filter f rows) + (if f x then Transaction.amount x else 0).
Proof.
  unfold Sum_amount. rewrite List.filter_app. cbn [List.filter].
  induction (List.filter f rows) as [| y l IH]; cbn.
  - destruct (f x); cbn; lia.
  - rewrite IH. lia.
Qed.

(** X4.  After a call the sender's total of completed transfers of the day
    is what it was, or it has grown by the amount and is within the daily
    limit of the caller's object; the time of day of the clock is not
    negative. *)
Theorem daily_total_after_transfer env db sender receiver amount description request :
  0 ≤ time_of_day (now env) →
  let before := daily_transfer_total env db sender in
  let after :=
    daily_transfer_total env
      (snd (transfer_money env db sender receiver amount description request)) sender in
  after = before
  ∨ (after = before + amount
     ∧ before + amount ≤ BankAccount.daily_transfer_limit sender).
Proof.
  intros Hclock. cbv zeta. rewrite transfer_money_unfold. unfold atomic_exit.
  run_body. split_cases; try (left; reflexivity).
  all: bools_to_Z.
  all: unfold daily_transfer_total, set_transactions, set_bank_accounts,
         set_audit_logs; cbn [transactions].
  all: rewrite ?update_last_row, Sum_amount_filter_snoc.
  all: unfold sent_today, datetime_leb, replace_midnight; cbn.
  all: rewrite ?Z.eqb_refl, ?Z.ltb_irrefl; cbn.
  all: try (left; lia).
  all: replace (0 <=? time_of_day (now env)) with true
         by (symmetry; apply Z.leb_le; lia).
  all: right; unfold daily_transfer_total, sent_today, datetime_leb, replace_midnight in *;
    cbn in *; lia.
Qed.

Lemma daily_total_after_transfer_witness :
  0 ≤ time_of_day (now (env_with no_fault))
  ∧ (daily_transfer_total (env_with no_fault)
       (snd (transfer_money (env_with no_fault) test_db sender_account
               receiver_account 20000 "rent" None)) sender_account
     = daily_transfer_total (env_with no_fault) test_db sender_account
     ∨ (daily_transfer_total (env_with no_fault)
          (snd (transfer_money (env_with no_fault) test_db sender_account
                  receiver_account 20000 "rent" None)) sender_account
        = daily_transfer_total (env_with no_fault) test_db sender_account + 20000
        ∧ daily_transfer_total (env_with no_fault) test_db sender_account + 20000
          ≤ BankAccount.daily_transfer_limit sender_account)).
Proof.
  split; [vm_compute; discriminate |].
  apply (daily_total_after_transfer (env_with no_fault) test_db sender_account
           receiver_account 20000 "rent" None).
  vm_compute; discriminate.
Defined.

(** ** Conservation *)

(** X5.  For a call that returns success: the snapshots of the
    Transaction are the stored balances before the call and those balances
    moved by the amount, the sum of all balances is what it was, and, when
    the audit write raised no database error, the stored balances are the
    [after] snapshots. *)
Theorem successful_transfer_conserves env db sender receiver amount description
    request msg t :
  fst (transfer_money env db sender receiver amount description request)
    = Return (true, msg, Some t) →
  let db' := snd (transfer_money env db sender receiver amount description request) in
  (∃ sender_before receiver_before,
     balance_of db (BankAccount.pk sender) = Some sender_before
     ∧ balance_of db (BankAccount.pk receiver) = Some receiver_before
     ∧ Transaction.sender_balance_before t = Some sender_before
     ∧ Transaction.sender_balance_after t = Some (sender_before - amount)
     ∧ Transaction.receiver_balance_before t = Some receiver_before
     ∧ Transaction.receiver_balance_after t = Some (receiver_before + amount))
  ∧ total_balance db' = total_balance db
  ∧ ((∀ f, faults env CreateAuditLog = Some f → marks_rollback f = false) →
     balance_of db' (BankAccount.pk sender) = Transaction.sender_balance_after t
     ∧ balance_of db' (BankAccount.pk receiver) = Transaction.receiver_balance_after t).
Proof.
  intros Hok. cbv zeta. split; [| split].
  - destruct (success_snapshots _ _ _ _ _ _ _ _ _ Hok)
      as (sb & rb & ? & ? & ? & ? & ? & ?).
    exists sb, rb. repeat split; assumption.
  - exact (success_total_balance _ _ _ _ _ _ _ _ _ Hok).
  - intros Haudit.
    destruct (success_committed_balances _ _ _ _ _ _ _ _ _ Hok Haudit) as (? & ? & _).
    split; assumption.
Qed.

Lemma successful_transfer_conserves_witness :
  ∃ msg t,
    fst (transfer_money (env_with no_fault) test_db sender_account receiver_account
           20000 "rent" None) = Return (true, msg, Some t)
    ∧ total_balance
        (snd (transfer_money (env_with no_fault) test_db sender_account
                receiver_account 20000 "rent" None))
      = total_balance test_db.
Proof.
  eexists _, _. split; [vm_compute; reflexivity |].
  eapply (successful_transfer_conserves (env_with no_fault) test_db sender_account
            receiver_account 20000 "rent" None).
  vm_compute; reflexivity.
Defined.

(** ** A database error in a [save()] *)

(** X6.  When the one failing write is a [save()] of the sender, the
    receiver or the Transaction and it raises a database error, the call
    reports a failure and the store is what it was before the call. *)
Theorem database_error_in_save_leaves_store env db sender receiver amount
    description request op f :
  op = SaveSender ∨ op = SaveReceiver ∨ op = SaveTransaction →
  only_fault env op f →
  marks_rollback f = true →
  snd (transfer_money env db sender receiver amount description request) = db
  ∧ ∃ msg,
      fst (transfer_money env db sender receiver amount description request)
      = Return (false, msg, None).
Proof.
  intros Hop Hf Hm. split.
  - by apply (database_error_in_save_rolls_back _ _ _ _ _ _ _ op f).
  - assert (Henter : faults env EnterAtomic = None)
      by (rewrite (Hf EnterAtomic); by destruct Hop as [-> | [-> | ->]]).
    assert (Hcommit : faults env Commit = None)
      by (rewrite (Hf Commit); by destruct Hop as [-> | [-> | ->]]).
    destruct (transfer_money_total env db sender receiver amount description request
                Henter Hcommit) as [(ok & msg & txn & Hret & Htxn) _].
    destruct txn as [t |].
    + destruct Htxn as [-> _]. exfalso.
      apply (save_fault_never_success env db sender receiver amount description
               request op f msg (Some t) Hop); [| exact Hret].
      rewrite (Hf op). by destruct Hop as [-> | [-> | ->]].
    + subst ok. eauto.
Qed.

Lemma database_error_in_save_leaves_store_witness :
  snd (transfer_money (env_with (fault_at SaveReceiver "database is locked" true))
         test_db sender_account receiver_account 20000 "rent" None) = test_db
  ∧ ∃ msg,
      fst (transfer_money (env_with (fault_at SaveReceiver "database is locked" true))
             test_db sender_account receiver_account 20000 "rent" None)
      = Return (false, msg, None).
Proof.
  apply (database_error_in_save_leaves_store
           (env_with (fault_at SaveReceiver "database is locked" true)) test_db
           sender_account receiver_account 20000 "rent" None SaveReceiver
           {| fault_text := "database is locked"; marks_rollback := true |}).
  - right. left. reflexivity.
  - intros o. reflexivity.
  - reflexivity.
Defined.

Lemma unmarked_sender_fault_keeps_balances_witness :
  let r := transfer_money (env_with (fault_at SaveSender "Test error" false))
             test_db sender_account receiver_account 10000 "rent" None in
  fst r = Return (false, "Transfer failed: Test error", None)
  ∧ bank_accounts (snd r) = bank_accounts test_db
  ∧ ∃ t, transactions (snd r) = (transactions test_db ++ [t])%list
         ∧ Transaction.status t = failed
         ∧ Transaction.failure_reason t = Some "Test error".
Proof.
  apply (unmarked_sender_fault_keeps_balances
           (env_with (fault_at SaveSender "Test error" false)) test_db
           sender_account receiver_account 10000 "rent" None
           sender_account receiver_account
           {| fault_text := "Test error"; marks_rollback := false |}).
  - reflexivity.
  - vm_compute; discriminate.
  - lia.
  - reflexivity.
  - vm_compute; discriminate.
  - vm_compute; discriminate.
  - vm_compute; reflexivity.
  - vm_compute; reflexivity.
  - vm_compute; discriminate.
  - intros o. reflexivity.
Defined.

(** ** What [log_action] touches *)

(** X9.  [log_action] never raises.  Of the store it touches the audit log
    only: it returns the entry it appended, made of its arguments and of
    the client address of the request, or [None] with the store as it was.
    Of the connection it changes one thing more: an insert that fails
    with a database error marks the enclosing atomic block for rollback,
    although the error itself is swallowed; the block is marked after the
    call exactly when it was marked before or the insert failed so. *)
Theorem log_action_contained env user action description related_transaction
    related_account request c :
  ∃ r c',
    log_action env user action description related_transaction related_account
      request c = (Return r, c')
    ∧ bank_accounts (working c') = bank_accounts (working c)
    ∧ transactions (working c') = transactions (working c)
    ∧ committed c' = committed c
    ∧ locks c' = locks c
    ∧ needs_rollback c'
      = needs_rollback c
        || match faults env CreateAuditLog with
           | Some f => marks_rollback f
           | None => false
           end
    ∧ match r with
      | Some entry =>
          audit_logs (working c') = (audit_logs (working c) ++ [entry])%list
          ∧ AuditLog.user entry = user
          ∧ AuditLog.action entry = action
          ∧ AuditLog.description entry = description
          ∧ AuditLog.ip_address entry = request ≫= request_ip_address
          ∧ needs_rollback c = false
          ∧ faults env CreateAuditLog = None
      | None =>
          working c' = working c
          ∧ (needs_rollback c = true ∨ ∃ f, faults env CreateAuditLog = Some f)
      end.
Proof.
  unfold log_action, try_except, bind, execute_write, ret.
  destruct (needs_rollback c) eqn:Hnr.
  { eexists _, _. rewrite Hnr. repeat split. by left. }
  destruct (faults env CreateAuditLog) as [f |] eqn:Hf; eexists _, _; cbn;
    repeat split.
  right. by exists f.
Qed.

(** ** Cancelling *)

(** X10.  The Transaction that a successful [transfer_money] returns is
    refused by [cancel_transaction], in any store, with object and store
    left as they are. *)
Theorem completed_transfer_cannot_be_cancelled env db sender receiver amount
    description request msg t :
  fst (transfer_money env db sender receiver amount description request)
    = Return (true, msg, Some t) →
  ∀ env' save_fault reason db',
    cancel_transaction env' save_fault t reason db'
    = (Return (false, "Only pending transactions can be cancelled"), t, db').
Proof.
  intros Hok. apply returned_inv in Hok as (c' & Hrun & _).
  apply transfer_success_effect in Hrun as (rs & rr & _ & _ & _ & _ & _ & Hst & _).
  intros env' save_fault reason db'. unfold cancel_transaction. by rewrite Hst.
Qed.

Lemma completed_transfer_cannot_be_cancelled_witness :
  ∃ msg t,
    fst (transfer_money (env_with no_fault) test_db sender_account receiver_account
           20000 "rent" None) = Return (true, msg, Some t)
    ∧ cancel_transaction (env_with no_fault) None t "changed my mind"
        (snd (transfer_money (env_with no_fault) test_db sender_account
                receiver_account 20000 "rent" None))
      = (Return (false, "Only pending transactions can be cancelled"), t,
         snd (transfer_money (env_with no_fault) test_db sender_account
                receiver_account 20000 "rent" None)).
Proof.
  eexists _, _. split; [vm_compute; reflexivity |].
  eapply (completed_transfer_cannot_be_cancelled (env_with no_fault) test_db
            sender_account receiver_account 20000 "rent" None).
  vm_compute; reflexivity.
Defined.

Lemma cancel_pending_eq env save_fault transaction_obj reason db :
  Transaction.status transaction_obj = pending →
  cancel_transaction env save_fault transaction_obj reason db
  = let obj' := Transaction_with_id env (Transaction_cancelled reason transaction_obj) in
    match save_fault with
    | Some e => (Return (false, "Failed to cancel transaction: " +:+ e), obj', db)
    | None =>
        (Return (true, "Transaction cancelled successfully"), obj',
         set_transactions <[Transaction.pk obj' := obj']> db)
    end.
Proof.
  intros Hst. unfold cancel_transaction. rewrite Hst. cbn [Status_eqb negb].
  unfold autocommit, try_except, bind, save_autocommit, ret, start.
  destruct save_fault; reflexivity.
Qed.

(** X11.  Cancelling a stored [pending] transaction makes the object
    [cancelled] with the reason, changes no account and no audit entry,
    and makes every later cancellation of the object fail.  When the
    [save()] succeeds the row of the object is the cancelled object and
    the other rows are as before; when it fails the failure is reported
    and the store is unchanged, while the object stays [cancelled]. *)
Theorem cancel_pending_transaction env save_fault transaction_obj reason db :
  Transaction.status transaction_obj = pending →
  (Transaction.pk transaction_obj < length (transactions db))%nat →
  let r := cancel_transaction env save_fault transaction_obj reason db in
  let obj' := snd (fst r) in
  let db' := snd r in
  Transaction.status obj' = cancelled
  ∧ Transaction.failure_reason obj' = Some reason
  ∧ bank_accounts db' = bank_accounts db
  ∧ audit_logs db' = audit_logs db
  ∧ (∀ env2 fault2 reason2 db2,
       cancel_transaction env2 fault2 obj' reason2 db2
       = (Return (false, "Only pending transactions can be cancelled"), obj', db2))
  ∧ match save_fault with
    | None =>
        fst (fst r) = Return (true, "Transaction cancelled successfully")
        ∧ transactions db' !! Transaction.pk transaction_obj = Some obj'
        ∧ length (transactions db') = length (transactions db)
        ∧ ∀ i, i ≠ Transaction.pk transaction_obj →
               transactions db' !! i = transactions db !! i
    | Some e =>
        fst (fst r) = Return (false, "Failed to cancel transaction: " +:+ e)
        ∧ db' = db
    end.
Proof.
  intros Hst Hpk. cbv zeta.
  rewrite (cancel_pending_eq env save_fault transaction_obj reason db Hst).
  set (obj' := Transaction_with_id env (Transaction_cancelled reason transaction_obj)).
  assert (Hobj : Transaction.status obj' = cancelled
                 ∧ Transaction.failure_reason obj' = Some reason
                 ∧ Transaction.pk obj' = Transaction.pk transaction_obj).
  { subst obj'. unfold Transaction_with_id. by destruct (String.eqb _ _). }
  destruct Hobj as (Hs & Hr & Hp).
  assert (Hagain : ∀ env2 fault2 reason2 db2,
            cancel_transaction env2 fault2 obj' reason2 db2
            = (Return (false, "Only pending transactions can be cancelled"), obj', db2)).
  { intros. unfold cancel_transaction. by rewrite Hs. }
  destruct save_fault as [e |]; cbn [fst snd].
  - repeat split; try assumption; reflexivity.
  - unfold set_transactions. cbn [bank_accounts audit_logs transactions].
    rewrite Hp.
    split; [exact Hs |]. split; [exact Hr |]. split; [reflexivity |].
    split; [reflexivity |]. split; [exact Hagain |].
    split; [reflexivity |].
    split; [by apply list_lookup_insert_eq |].
    split; [apply length_insert |].
    intros i Hi. by apply list_lookup_insert_ne.
Qed.

Lemma cancel_pending_transaction_witness :
  Transaction.status pending_transaction = pending
  ∧ fst (fst (cancel_transaction (env_with no_fault) None pending_transaction
                "changed my mind" pending_db))
    = Return (true, "Transaction cancelled successfully")
  ∧ Transaction.status <$>
      transactions (snd (cancel_transaction (env_with no_fault) None
                           pending_transaction "changed my mind" pending_db))
    = [cancelled].
Proof.
  split; [reflexivity |].
  pose proof (cancel_pending_transaction (env_with no_fault) None pending_transaction
                "changed my mind" pending_db eq_refl) as H.
  cbv zeta in H. destruct H as (_ & _ & _ & _ & _ & Hres & _); [cbn; lia |].
  split; [exact Hres |]. vm_compute. reflexivity.
Defined.

(** ** Deactivating an account, changing its limit *)

Lemma deactivate_account_store env account reason db :
  bank_accounts (snd (deactivate_account env None account reason db))
  = <[BankAccount.pk account := BankAccount_with_is_active false account]>
      (bank_accounts db)
  ∧ transactions (snd (deactivate_account env None account reason db))
    = transactions db.
Proof.
  unfold deactivate_account, autocommit, try_except, bind, save_autocommit,
    log_action, try_except, bind, execute_write, ret, start. cbn.
  destruct (faults env CreateAuditLog); split; reflexivity.
Qed.

Lemma inactive_sender_rejected env db sender receiver amount description request :
  faults env EnterAtomic = None →
  faults env Commit = None →
  BankAccount.pk sender ≠ BankAccount.pk receiver →
  0 < amount →
  BankAccount.is_active sender = false →
  transfer_money env db sender receiver amount description request
  = (Return (false, "Account is not active", None), db).
Proof.
  intros Henter Hcommit Hne Hpos Hact.
  rewrite transfer_money_unfold, Henter. unfold atomic_exit. run_body.
  apply Z.eqb_neq in Hne. rewrite Hne, Hact.
  replace (amount <=? 0) with false by (symmetry; apply Z.leb_gt; lia).
  cbn. by rewrite Hcommit.
Qed.

(** X12.  When its [save()] succeeds, [deactivate_account] reports success
    whatever becomes of the audit entry and stores the caller's object
    with [is_active] false.  [account.save()] writes every field: the
    stored balance becomes the balance of the caller's object, which is
    the balance stored before when the object is the stored row.  Every
    later [transfer_money] from the object leaves the store as it is and,
    its atomic block entered and committed, is rejected with [Account is
    not active]. *)
Theorem deactivated_account_cannot_send env account reason db :
  let r := deactivate_account env None account reason db in
  let account' := snd (fst r) in
  let db' := snd r in
  fst (fst r) = Return (true, "Account deactivated successfully")
  ∧ account' = BankAccount_with_is_active false account
  ∧ bank_accounts db' = <[BankAccount.pk account := account']> (bank_accounts db)
  ∧ transactions db' = transactions db
  ∧ BankAccount.is_active <$> bank_accounts db' !! BankAccount.pk account = Some false
  ∧ balance_of db' (BankAccount.pk account) = Some (BankAccount.balance account)
  ∧ (bank_accounts db !! BankAccount.pk account = Some account →
     balance_of db' (BankAccount.pk account) = balance_of db (BankAccount.pk account)
     ∧ total_balance db' = total_balance db)
  ∧ ∀ env' receiver amount description request,
      BankAccount.pk account ≠ BankAccount.pk receiver →
      0 < amount →
      snd (transfer_money env' db' account' receiver amount description request) = db'
      ∧ (faults env' EnterAtomic = None →
         faults env' Commit = None →
         fst (transfer_money env' db' account' receiver amount description request)
         = Return (false, "Account is not active", None)).
Proof.
  cbv zeta.
  destruct (deactivate_account_store env account reason db) as [Haccs Htx].
  change (snd (fst (deactivate_account env None account reason db)))
    with (BankAccount_with_is_active false account).
  split.
  { unfold deactivate_account, autocommit, try_except, bind, save_autocommit,
      log_action, try_except, bind, execute_write, ret, start. cbn.
    destruct (faults env CreateAuditLog); reflexivity. }
  split; [reflexivity |]. split; [exact Haccs |]. split; [exact Htx |].
  split; [by rewrite Haccs, lookup_insert_eq |].
  split; [unfold balance_of; by rewrite Haccs, lookup_insert_eq |].
  split.
  { intros Hrow. unfold balance_of, total_balance.
    rewrite Haccs, lookup_insert_eq, Hrow. split; [reflexivity |].
    pose proof (total_balance_insert (bank_accounts db) (BankAccount.pk account)
                  account (BankAccount_with_is_active false account) [] [] [] [] Hrow)
      as Htot.
    unfold total_balance in Htot. cbn in Htot. rewrite Htot. lia. }
  intros env' receiver amount description request Hne Hpos. split.
  - apply rejected_store_unchanged. unfold rejected. cbn. tauto.
  - intros Henter Hcommit.
    by rewrite (inactive_sender_rejected env' _
                  (BankAccount_with_is_active false account) receiver amount
                  description request Henter Hcommit Hne Hpos eq_refl).
Qed.

(** ** Stale objects *)

(** X14.  [account.save()] writes every field of the caller's object:
    [update_daily_limit] on a sender object read before a committed
    transfer writes the old balance back, so that the sum of all balances
    has grown by the amount of the transfer. *)
Theorem stale_limit_update_restores_balance env db sender receiver amount description
    request msg t env' new_limit :
  bank_accounts db !! BankAccount.pk sender = Some sender →
  (∀ f, faults env CreateAuditLog = Some f → marks_rollback f = false) →
  fst (transfer_money env db sender receiver amount description request)
    = Return (true, msg, Some t) →
  let db1 := snd (transfer_money env db sender receiver amount description request) in
  let r := update_daily_limit env' None sender new_limit db1 in
  fst (fst r) = Return (true, "Daily limit updated successfully")
  ∧ balance_of db1 (BankAccount.pk sender) = Some (BankAccount.balance sender - amount)
  ∧ balance_of (snd r) (BankAccount.pk sender) = Some (BankAccount.balance sender)
  ∧ total_balance db1 = total_balance db
  ∧ total_balance (snd r) = total_balance db + amount.
Proof.
  intros Hrow Haudit Hok. cbv zeta.
  destruct (returned_inv _ _ _ _ _ _ _ _ Hok) as (c' & Hrun & ->).
  apply transfer_success_effect in Hrun
    as (rs & rr & Hne & Hs & Hr & _ & _ & _ & _ & _ & _ & _ & Hc & Hw & Htx & _ & Hnr).
  rewrite Hrow in Hs. injection Hs as <-.
  assert (needs_rollback c' = false) as Hnr'.
  { rewrite Hnr. destruct (faults env CreateAuditLog) eqn:E; [by apply Haudit | done]. }
  rewrite Hnr'.
  unfold update_daily_limit, autocommit, try_except, bind, save_autocommit,
    log_action, try_except, bind, execute_write, ret, start. cbn.
  assert (Hdc : bank_accounts (working c') !! BankAccount.pk sender
                = Some (BankAccount.with_balance (BankAccount.balance sender - amount)
                          (BankAccount.with_pk (BankAccount.pk sender) sender))).
  { rewrite Hw. unfold debit_credit.
    rewrite lookup_insert_ne by congruence. by rewrite lookup_insert_eq. }
  assert (Htot : total_balance (working c') = total_balance db).
  { destruct (working c') as [accs txs logs]. cbn in Hw. subst accs.
    by apply debit_credit_total. }
  split; [destruct (faults env' CreateAuditLog); reflexivity |].
  split; [unfold balance_of; by rewrite Hdc |].
  split.
  { destruct (faults env' CreateAuditLog); unfold balance_of; cbn;
      by rewrite lookup_insert_eq. }
  split; [exact Htot |].
  destruct (working c') as [accs txs logs] eqn:Ew.
  cbn [bank_accounts transactions audit_logs] in *.
  destruct (faults env' CreateAuditLog);
    unfold set_bank_accounts, set_audit_logs;
    cbn [bank_accounts transactions audit_logs working snd];
    erewrite (total_balance_insert accs _ _ _ _ _ txs logs) by exact Hdc;
    rewrite Htot; cbn; lia.
Qed.

Lemma stale_limit_update_restores_balance_witness :
  let db1 := snd (transfer_money (env_with no_fault) test_db sender_account
                    receiver_account 20000 "rent" None) in
  let r := update_daily_limit (env_with no_fault) None sender_account 5000000 db1 in
  fst (fst r) = Return (true, "Daily limit updated successfully")
  ∧ balance_of db1 (BankAccount.pk sender_account)
    = Some (BankAccount.balance sender_account - 20000)
  ∧ balance_of (snd r) (BankAccount.pk sender_account)
    = Some (BankAccount.balance sender_account)
  ∧ total_balance db1 = total_balance test_db
  ∧ total_balance (snd r) = total_balance test_db + 20000.
Proof.
  eapply (stale_limit_update_restores_balance (env_with no_fault) test_db
            sender_account receiver_account 20000 "rent" None).
  - vm_compute; reflexivity.
  - intros f [=].
  - vm_compute; reflexivity.
Defined.

Lemma daily_transfer_total_ext env d d' a a' :
  transactions d = transactions d' →
  BankAccount.pk a = BankAccount.pk a' →
  daily_transfer_total env d a = daily_transfer_total env d' a'.
Proof.
  intros Hd Ha. unfold daily_transfer_total, sent_today. by rewrite Hd, Ha.
Qed.

Lemma over_limit_rejected env db sender receiver amount description request :
  faults env EnterAtomic = None →
  faults env Commit = None →
  BankAccount.pk sender ≠ BankAccount.pk receiver →
  0 < amount →
  BankAccount.is_active sender = true →
  amount ≤ BankAccount.balance sender →
  BankAccount.daily_transfer_limit sender
    < daily_transfer_total env db sender + amount →
  transfer_money env db sender receiver amount description request
  = (Return (false,
             daily_limit_message (BankAccount.daily_transfer_limit sender)
               (daily_transfer_total env db sender),
             None), db).
Proof.
  intros Henter Hcommit Hne Hpos Hact Hbal Hlim.
  rewrite transfer_money_unfold, Henter. unfold atomic_exit. run_body.
  unfold BankAccount.has_sufficient_balance.
  apply Z.eqb_neq in Hne. rewrite Hne, Hact.
  replace (amount <=? 0) with false by (symmetry; apply Z.leb_gt; lia).
  replace (amount <=? BankAccount.balance sender) with true
    by (symmetry; apply Z.leb_le; lia).
  cbn.
  apply Z.ltb_lt in Hlim. rewrite Hlim. cbn. by rewrite Hcommit.
Qed.

(** X13.  When its [save()] succeeds, [update_daily_limit] reports success
    whatever becomes of the audit entry and stores the new limit; a later
    [transfer_money] from the object, active and with the balance, that
    would take the day's total above the new limit leaves the store as it
    is and, its atomic block entered and committed, is rejected with the
    daily-limit message. *)
Theorem updated_limit_is_enforced env account new_limit db :
  let r := update_daily_limit env None account new_limit db in
  let account' := snd (fst r) in
  let db' := snd r in
  fst (fst r) = Return (true, "Daily limit updated successfully")
  ∧ bank_accounts db' = <[BankAccount.pk account := account']> (bank_accounts db)
  ∧ transactions db' = transactions db
  ∧ BankAccount.daily_transfer_limit account' = new_limit
  ∧ BankAccount.balance account' = BankAccount.balance account
  ∧ ∀ env' receiver amount description request,
      BankAccount.pk account ≠ BankAccount.pk receiver →
      0 < amount →
      BankAccount.is_active account = true →
      amount ≤ BankAccount.balance account →
      new_limit < daily_transfer_total env' db account + amount →
      snd (transfer_money env' db' account' receiver amount description request) = db'
      ∧ (faults env' EnterAtomic = None →
         faults env' Commit = None →
         transfer_money env' db' account' receiver amount description request
         = (Return (false,
                    daily_limit_message new_limit (daily_transfer_total env' db account),
                    None), db')).
Proof.
  cbv zeta.
  assert (Htx : transactions (snd (update_daily_limit env None account new_limit db))
                = transactions db).
  { unfold update_daily_limit, autocommit, try_except, bind, save_autocommit,
      log_action, try_except, bind, execute_write, ret, start. cbn.
    destruct (faults env CreateAuditLog); reflexivity. }
  split; [| split; [| split; [exact Htx | split; [reflexivity | split; [reflexivity |]]]]].
  - unfold update_daily_limit, autocommit, try_except, bind, save_autocommit,
      log_action, try_except, bind, execute_write, ret, start. cbn.
    destruct (faults env CreateAuditLog); reflexivity.
  - unfold update_daily_limit, autocommit, try_except, bind, save_autocommit,
      log_action, try_except, bind, execute_write, ret, start. cbn.
    destruct (faults env CreateAuditLog); reflexivity.
  - intros env' receiver amount description request Hne Hpos Hact Hbal Hlim.
    rewrite <- (daily_transfer_total_ext env' _ db
                  (BankAccount_with_daily_transfer_limit new_limit account) account
                  Htx eq_refl) in *.
    split.
    + apply rejected_store_unchanged. unfold rejected. cbn. tauto.
    + intros Henter Hcommit.
      apply (over_limit_rejected env' _
               (BankAccount_with_daily_transfer_limit new_limit account));
        assumption.
Qed.

(** ** The transfer form *)

Lemma get_active_by_number_found db number receiver :
  get_active_by_number db number = Found receiver →
  ∃ row,
    bank_accounts db !! BankAccount.pk receiver = Some row
    ∧ receiver = BankAccount.with_pk (BankAccount.pk receiver) row
    ∧ BankAccount.account_number row = number
    ∧ BankAccount.is_active row = true.
Proof.
  unfold get_active_by_number.
  destruct (List.filter _ _) as [| [k row] [| ? ?]] eqn:Hf; try discriminate.
  intros [= <-].
  assert (In (k, row) (List.filter
            (λ kv : Z * BankAccount.t,
               String.eqb (BankAccount.account_number (snd kv)) number
               && BankAccount.is_active (snd kv))
            (map_to_list (bank_accounts db)))) as Hin by (rewrite Hf; by left).
  apply filter_In in Hin as [Hin Hp]. cbn in Hp.
  apply andb_true_iff in Hp as [Hn Ha]. apply String.eqb_eq in Hn.
  apply list_elem_of_In, elem_of_map_to_list in Hin.
  exists row. cbn. auto.
Qed.

Lemma clean_receiver_valid db sender account_number cleaned receiver :
  clean_receiver_account_number db sender account_number = Valid (cleaned, receiver) →
  cleaned = account_number
  ∧ get_active_by_number db account_number = Found receiver
  ∧ ∀ s, sender = Some s → BankAccount.pk receiver ≠ BankAccount.pk s.
Proof.
  unfold clean_receiver_account_number.
  destruct (get_active_by_number db account_number) as [r | |]; try discriminate.
  destruct sender as [s |].
  - destruct (BankAccount.pk r =? BankAccount.pk s) eqn:E; [discriminate |].
    intros [= <- <-]. split; [done |]. split; [done |].
    intros s' [= <-]. by apply Z.eqb_neq.
  - intros [= <- <-]. split; [done |]. split; [done |]. intros s' [=].
Qed.

(** X17.  A receiver that [clean_receiver_account_number] accepts is a
    stored account, active, with the account number entered, and not the
    sender's; the number is returned as entered. *)
Theorem form_receiver_is_active_stored_and_other db sender account_number
    cleaned receiver :
  clean_receiver_account_number db sender account_number = Valid (cleaned, receiver) →
  cleaned = account_number
  ∧ BankAccount.is_active receiver = true
  ∧ BankAccount.account_number receiver = account_number
  ∧ (∃ row, bank_accounts db !! BankAccount.pk receiver = Some row
            ∧ receiver = BankAccount.with_pk (BankAccount.pk receiver) row)
  ∧ ∀ s, sender = Some s → BankAccount.pk receiver ≠ BankAccount.pk s.
Proof.
  intros Hclean.
  destruct (clean_receiver_valid _ _ _ _ _ Hclean) as (Hc & Hget & Hne).
  destruct (get_active_by_number_found _ _ _ Hget) as (row & Hrow & Hr & Hn & Ha).
  split; [exact Hc |].
  split; [rewrite Hr; exact Ha |].
  split; [rewrite Hr; exact Hn |].
  split; [exists row; split; assumption | exact Hne].
Qed.

Lemma form_receiver_is_active_stored_and_other_witness :
  clean_receiver_account_number test_db (Some sender_account) "SPF002"
    = Valid ("SPF002", receiver_account)
  ∧ BankAccount.is_active receiver_account = true
  ∧ BankAccount.pk receiver_account ≠ BankAccount.pk sender_account.
Proof.
  assert (H : clean_receiver_account_number test_db (Some sender_account) "SPF002"
              = Valid ("SPF002", receiver_account)) by (vm_compute; reflexivity).
  destruct (form_receiver_is_active_stored_and_other _ _ _ _ _ H)
    as (_ & Ha & _ & _ & Hne).
  split; [exact H |]. split; [exact Ha |]. exact (Hne _ eq_refl).
Defined.

Lemma clean_amount_valid env db sender amount :
  clean_amount env db (Some sender) amount = Valid amount
  ↔ amount ≤ BankAccount.balance sender
    ∧ daily_transfer_total env db sender + amount
      ≤ BankAccount.daily_transfer_limit sender.
Proof.
  unfold clean_amount, get_daily_transfer_total, query, start,
    BankAccount.has_sufficient_balance. cbn.
  destruct (amount <=? BankAccount.balance sender) eqn:Hb; cbn.
  - destruct (BankAccount.daily_transfer_limit sender
              <? daily_transfer_total env db sender + amount) eqn:Hl;
      bools_to_Z; split; try discriminate; try lia; intros; reflexivity.
  - bools_to_Z. split; [discriminate | lia].
Qed.

(** X18.  For an active sender and a positive amount, [clean_amount]
    accepts the amount exactly when [can_transfer] allows the transfer. *)
Theorem form_amount_agrees_with_can_transfer env db sender amount :
  BankAccount.is_active sender = true →
  0 < amount →
  clean_amount env db (Some sender) amount = Valid amount
  ↔ fst (can_transfer env sender amount (start db)) = Return (true, "Transfer allowed").
Proof.
  intros Hact Hpos. unfold clean_amount, can_transfer, get_daily_transfer_total,
    query, bind, ret, start. cbn. rewrite Hact. cbn.
  replace (amount <=? 0) with false by (symmetry; apply Z.leb_gt; lia).
  destruct (negb (BankAccount.has_sufficient_balance sender amount)); cbn;
    [split; discriminate |].
  destruct (BankAccount.daily_transfer_limit sender
            <? daily_transfer_total env db sender + amount); cbn;
    split; try discriminate; reflexivity.
Qed.

Lemma form_amount_agrees_with_can_transfer_witness :
  clean_amount (env_with no_fault) test_db (Some sender_account) 20000 = Valid 20000
  ↔ fst (can_transfer (env_with no_fault) sender_account 20000 (start test_db))
    = Return (true, "Transfer allowed").
Proof.
  apply (form_amount_agrees_with_can_transfer (env_with no_fault) test_db
           sender_account 20000); [reflexivity | lia].
Defined.

(** X19.  The path of the view [transfer_money] ([finance/views.py], lines
    218-233): the form is cleaned, then the service is called with the
    cleaned values.  For a sender object that is the stored row and
    active, a receiver and a positive amount that the form accepted, and
    no failing write, the transfer succeeds, debits the sender and credits
    the receiver by the amount, and the account credited is active. *)
Theorem form_validated_transfer_goes_through env db sender account_number receiver
    amount description request :
  (∀ op, faults env op = None) →
  bank_accounts db !! BankAccount.pk sender = Some sender →
  BankAccount.is_active sender = true →
  0 < amount →
  clean_receiver_account_number db (Some sender) account_number
    = Valid (account_number, receiver) →
  clean_amount env db (Some sender) amount = Valid amount →
  ∃ t db',
    transfer_money env db sender receiver amount description request
    = (Return (true,
               "Transfer successful! Transaction ID: " +:+ Transaction.transaction_id t,
               Some t), db')
    ∧ BankAccount.is_active <$> bank_accounts db' !! BankAccount.pk receiver = Some true
    ∧ balance_of db' (BankAccount.pk sender) = Some (BankAccount.balance sender - amount)
    ∧ balance_of db' (BankAccount.pk receiver)
      = Some (BankAccount.balance receiver + amount).
Proof.
  intros Hnf Hrow Hact Hpos Hrecv Hamt.
  destruct (clean_receiver_valid _ _ _ _ _ Hrecv) as (_ & Hget & Hne).
  destruct (get_active_by_number_found _ _ _ Hget) as (row & Hr & Hrw & _ & Hra).
  specialize (Hne _ eq_refl).
  apply clean_amount_valid in Hamt as [Hbal Hlim].
  destruct (transfer_succeeds env db sender receiver amount description request
              sender row) as (t & db' & Heq & _ & Haccs & _); auto.
  exists t, db'. split; [exact Heq |].
  assert (Hrb : BankAccount.balance row = BankAccount.balance receiver)
    by (rewrite Hrw; reflexivity).
  unfold balance_of. rewrite Haccs.
  rewrite debit_credit_sender by congruence.
  rewrite debit_credit_receiver. rewrite Hrb.
  split; [| split; reflexivity].
  unfold debit_credit. rewrite lookup_insert_eq. cbn. by rewrite Hra.
Qed.

Lemma form_validated_transfer_goes_through_witness :
  ∃ t db',
    transfer_money (env_with no_fault) test_db sender_account receiver_account
      20000 "rent" None
    = (Return (true,
               "Transfer successful! Transaction ID: " +:+ Transaction.transaction_id t,
               Some t), db')
    ∧ BankAccount.is_active <$> bank_accounts db' !! BankAccount.pk receiver_account
      = Some true
    ∧ balance_of db' (BankAccount.pk sender_account)
      = Some (BankAccount.balance sender_account - 20000)
    ∧ balance_of db' (BankAccount.pk receiver_account)
      = Some (BankAccount.balance receiver_account + 20000).
Proof.
  apply (form_validated_transfer_goes_through (env_with no_fault) test_db
           sender_account "SPF002" receiver_account 20000 "rent" None).
  - intros op. reflexivity.
  - vm_compute; reflexivity.
  - reflexivity.
  - lia.
  - vm_compute; reflexivity.
  - vm_compute; reflexivity.
Defined.

(** ** Recent activity *)

Lemma datetime_le_total a b : datetime_le a b ∨ datetime_le b a.
Proof. unfold datetime_le. lia. Qed.

Lemma datetime_le_trans a b c : datetime_le a b → datetime_le b c → datetime_le a c.
Proof. unfold datetime_le. lia. Qed.

Lemma insert_newest_first_perm x rows : insert_newest_first x rows ≡ₚ x :: rows.
Proof.
  induction rows as [| y rows IH]; cbn; [reflexivity |].
  destruct (datetime_leb _ _); [reflexivity |].
  rewrite IH. apply Permutation_swap.
Qed.

Lemma newest_first_perm rows : newest_first rows ≡ₚ rows.
Proof.
  induction rows as [| x rows IH]; cbn; [reflexivity |].
  rewrite insert_newest_first_perm. by rewrite IH.
Qed.

Lemma insert_newest_first_sorted x rows :
  StronglySorted at_least_as_recent rows →
  StronglySorted at_least_as_recent (insert_newest_first x rows).
Proof.
  induction rows as [| y rows IH]; cbn; intros Hs.
  - repeat constructor.
  - apply StronglySorted_inv in Hs as [Hs Hy].
    destruct (datetime_leb _ _) eqn:E.
    + apply datetime_leb_le in E.
      constructor; [by constructor |].
      constructor; [exact E |].
      eapply Forall_impl; [exact Hy |].
      intros z Hz. unfold at_least_as_recent in *. by eapply datetime_le_trans.
    + constructor; [by apply IH |].
      rewrite insert_newest_first_perm. constructor; [| exact Hy].
      unfold at_least_as_recent.
      destruct (datetime_le_total (AuditLog.created_at x) (AuditLog.created_at y))
        as [H | H]; [exact H |].
      apply datetime_leb_le in H. congruence.
Qed.

Lemma newest_first_sorted rows : StronglySorted at_least_as_recent (newest_first rows).
Proof.
  induction rows as [| x rows IH]; cbn; [constructor |].
  by apply insert_newest_first_sorted.
Qed.

(** X15.  [get_user_activity] refuses a negative limit.  Otherwise it
    returns [min limit n] of the [n] entries of the user, each of them an
    entry of the audit log, newest first, and the entries left out are no
    more recent than those returned. *)
Theorem get_user_activity_most_recent db user limit :
  let mine := List.filter (λ entry, AuditLog.user entry =? user) (audit_logs db) in
  (limit < 0 → get_user_activity db user limit
               = Raise "Negative indexing is not supported.")
  ∧ (0 ≤ limit →
     ∃ entries rest,
       get_user_activity db user limit = Return entries
       ∧ length entries = Nat.min (Z.to_nat limit) (length mine)
       ∧ (entries ++ rest)%list ≡ₚ mine
       ∧ StronglySorted at_least_as_recent (entries ++ rest)%list
       ∧ ∀ entry, entry ∈ entries →
                  AuditLog.user entry = user ∧ entry ∈ audit_logs db).
Proof.
  cbv zeta. unfold get_user_activity. split; intros Hlim.
  - by apply Z.ltb_lt in Hlim as ->.
  - apply Z.ltb_ge in Hlim as ->.
    set (mine := List.filter _ _).
    exists (take (Z.to_nat limit) (newest_first mine)),
           (drop (Z.to_nat limit) (newest_first mine)).
    split; [reflexivity |].
    split; [by rewrite length_take, newest_first_perm |].
    rewrite take_drop.
    split; [apply newest_first_perm |].
    split; [apply newest_first_sorted |].
    intros entry Hin.
    assert (entry ∈ mine) as Hm.
    { rewrite <- (newest_first_perm mine),
        <- (take_drop (Z.to_nat limit) (newest_first mine)).
      apply elem_of_app. by left. }
    subst mine. apply list_elem_of_In, filter_In in Hm as [Hin' Hu].
    apply Z.eqb_eq in Hu. split; [exact Hu | by apply list_elem_of_In].
Qed.

(** ** The form of an account number *)

Lemma length_string_app (a b : string) :
  String.length (a +:+ b) = (String.length a + String.length b)%nat.
Proof.
  induction a as [| c a IH]; [reflexivity |].
  change (String c a +:+ b) with (String c (a +:+ b)).
  cbn [String.length]. by rewrite IH.
Qed.

(** X16.  With a date part of 6 and a random part of 8 characters in each
    draw, a number that [generate_account_number] returns starts with
    [SPF], has 17 characters and is the number of no stored account. *)
Theorem generated_account_number_format fuel db draws number :
  (∀ j, String.length (date_part (draws j)) = 6%nat
        ∧ String.length (random_part (draws j)) = 8%nat) →
  generate_account_number fuel db draws = Some number →
  String.prefix "SPF" number = true
  ∧ String.length number = 17%nat
  ∧ ∀ k a, bank_accounts db !! k = Some a → BankAccount.account_number a ≠ number.
Proof.
  intros Hdraws Hgen. unfold generate_account_number in Hgen.
  apply generate_from_sound in Hgen as [Hfree [j ->]].
  destruct (Hdraws j) as [Hd Hr].
  split.
  { unfold candidate. cbn. by destruct (date_part (draws j) +:+ random_part (draws j)). }
  split; [| by apply account_number_exists_false].
  unfold candidate. rewrite !length_string_app, Hd, Hr. reflexivity.
Qed.

Lemma generated_account_number_format_witness :
  String.prefix "SPF" "SPF24100500000001" = true
  ∧ String.length "SPF24100500000001" = 17%nat
  ∧ ∀ k a, bank_accounts taken_number_db !! k = Some a →
           BankAccount.account_number a ≠ "SPF24100500000001".
Proof.
  apply (generated_account_number_format 5 taken_number_db second_draw_free).
  - intros j. unfold second_draw_free. cbn. by destruct (j =? 0)%nat.
  - vm_compute; reflexivity.
Defined.

(** ** The first application *)

Module LegacyFacts.
Import Legacy.

Lemma total_insert (m : gmap Z CreateUser.t) k u u' :
  m !! k = Some u →
  total (<[k := u']> m) = total m - CreateUser.balance u + CreateUser.balance u'.
Proof.
  intros Hk. unfold total.
  rewrite <- (insert_delete_id m k u Hk) at 2.
  rewrite <- (insert_delete_eq m k u').
  rewrite !map_fold_insert_L; try apply lookup_delete_eq; [lia | |]; intros; lia.
Qed.

Lemma filter_perm {A} (f : A → bool) (l l' : list A) :
  l ≡ₚ l' → List.filter f l ≡ₚ List.filter f l'.
Proof.
  induction 1 as [| x l l' _ IH | x y l | l l' l'' _ IH1 _ IH2]; cbn.
  - reflexivity.
  - destruct (f x); [by constructor | done].
  - destruct (f x), (f y); try reflexivity. apply Permutation_swap.
  - by etrans.
Qed.

Lemma get_by_name_perm (l l' : list (Z * CreateUser.t)) n :
  l ≡ₚ l' →
  match List.filter (λ kv : Z * CreateUser.t, String.eqb (CreateUser.name (snd kv)) n) l
  with [] => inl DoesNotExist | [kv] => inr kv | _ => inl MultipleObjectsReturned end
  = match List.filter (λ kv : Z * CreateUser.t, String.eqb (CreateUser.name (snd kv)) n) l'
    with [] => inl DoesNotExist | [kv] => inr kv | _ => inl MultipleObjectsReturned end.
Proof.
  intros Hp. apply (filter_perm (λ kv : Z * CreateUser.t,
                       String.eqb (CreateUser.name (snd kv)) n)) in Hp.
  pose proof (Permutation_length Hp) as Hlen.
  destruct (List.filter _ l) as [| a [| b r]], (List.filter _ l') as [| a' [| b' r']];
    cbn in Hlen; try lia; try reflexivity.
  by apply Permutation_length_1 in Hp as ->.
Qed.

Lemma get_by_name_found m n k q :
  get_by_name m n = inr (k, q) → m !! k = Some q ∧ CreateUser.name q = n.
Proof.
  unfold get_by_name.
  destruct (List.filter _ _) as [| kv [| ? ?]] eqn:Hf; try discriminate.
  intros [= ->].
  assert (In (k, q) (List.filter
            (λ kv : Z * CreateUser.t, String.eqb (CreateUser.name (snd kv)) n)
            (map_to_list m))) as Hin by (rewrite Hf; by left).
  apply filter_In in Hin as [Hin Hp]. cbn in Hp. apply String.eqb_eq in Hp.
  by apply list_elem_of_In, elem_of_map_to_list in Hin.
Qed.

(** Moving the balance of a row leaves every lookup by name as it was, up
    to the new balance of that row. *)
Lemma get_by_name_move m k q amount n :
  m !! k = Some q →
  get_by_name (move_balance k q amount m) n
  = match get_by_name m n with
    | inl e => inl e
    | inr (k', q') =>
        if decide (k' = k)
        then inr (k, CreateUser.with_balance (CreateUser.balance q + amount) q)
        else inr (k', q')
    end.
Proof.
  intros Hk. unfold get_by_name, move_balance.
  set (q' := CreateUser.with_balance _ q).
  assert (H1 : map_to_list (<[k := q']> m) ≡ₚ (k, q') :: map_to_list (delete k m)).
  { rewrite <- insert_delete_eq. apply map_to_list_insert, lookup_delete_eq. }
  assert (H2 : map_to_list m ≡ₚ (k, q) :: map_to_list (delete k m)).
  { rewrite <- (insert_delete_id m k q Hk) at 1.
    apply map_to_list_insert, lookup_delete_eq. }
  rewrite (get_by_name_perm _ _ n H1), (get_by_name_perm _ _ n H2).
  set (f := λ kv : Z * CreateUser.t, String.eqb (CreateUser.name (snd kv)) n).
  assert (Hnot : ∀ kv, In kv (List.filter f (map_to_list (delete k m))) → fst kv ≠ k).
  { intros [k' u] Hin%filter_In. destruct Hin as [Hin _].
    apply list_elem_of_In, elem_of_map_to_list in Hin. cbn. intros ->.
    by rewrite lookup_delete_eq in Hin. }
  cbn [List.filter].
  change (f (k, q')) with (String.eqb (CreateUser.name q) n).
  change (f (k, q)) with (String.eqb (CreateUser.name q) n).
  destruct (String.eqb (CreateUser.name q) n).
  - destruct (List.filter f (map_to_list (delete k m))) as [| ? ?]; [| done].
    by rewrite decide_True.
  - destruct (List.filter f (map_to_list (delete k m))) as [| [k' u] [| ? ?]] eqn:E;
      try done.
    rewrite decide_False; [done |].
    apply (Hnot (k', u)). by left.
Qed.

(** X20.  When the database takes the record, the names of receiver and
    sender each match one user, the users differ and the new balances are
    within the range of the integer column, [transferMoney] redirects,
    moves the amount from the sender's balance to the receiver's whatever
    the balance and the sign of the amount, changes no other user, keeps
    the sum of the balances and adds one transfer record. *)
Theorem transferMoney_moves_without_checks backend now name receiver amount db
    k1 q1 k2 q2 :
  insert_accepted backend name receiver amount = true →
  get_by_name (users db) receiver = inr (k1, q1) →
  get_by_name (users db) name = inr (k2, q2) →
  k1 ≠ k2 →
  in_range backend (CreateUser.balance q1 + amount) = true →
  in_range backend (CreateUser.balance q2 - amount) = true →
  ∃ db',
    transferMoney backend now name receiver amount db = Some (Redirect "Users", db')
    ∧ CreateUser.balance <$> users db' !! k1 = Some (CreateUser.balance q1 + amount)
    ∧ CreateUser.balance <$> users db' !! k2 = Some (CreateUser.balance q2 - amount)
    ∧ (∀ k, k ≠ k1 → k ≠ k2 → users db' !! k = users db !! k)
    ∧ total (users db') = total (users db)
    ∧ length (transfers db') = S (length (transfers db)).
Proof.
  intros Hins Hr Hs Hne Hr1 Hr2. unfold transferMoney. rewrite Hins, Hr, Hr1.
  cbn [negb].
  destruct (get_by_name_found _ _ _ _ Hr) as [Hk1 _].
  destruct (get_by_name_found _ _ _ _ Hs) as [Hk2 _].
  rewrite (get_by_name_move _ _ _ _ _ Hk1), Hs.
  rewrite decide_False by congruence. rewrite Hr2. cbn [negb].
  eexists. split; [reflexivity |]. cbn [users transfers].
  unfold move_balance.
  split; [by rewrite lookup_insert_ne, lookup_insert_eq by congruence |].
  split; [by rewrite lookup_insert_eq; cbn; f_equal; lia |].
  split.
  { intros k ? ?. by rewrite !lookup_insert_ne by congruence. }
  split; [| by rewrite length_app, Nat.add_1_r].
  erewrite total_insert by (rewrite lookup_insert_ne by congruence; exact Hk2).
  erewrite total_insert by exact Hk1. cbn. lia.
Qed.

Lemma transferMoney_moves_without_checks_witness :
  ∃ db',
    transferMoney postgresql {| date := 20000; time_of_day := 0 |} "Asha" "Bilal" 5000
      two_users = Some (Redirect "Users", db')
    ∧ CreateUser.balance <$> users db' !! 2 = Some (CreateUser.balance bilal + 5000)
    ∧ CreateUser.balance <$> users db' !! 1 = Some (CreateUser.balance asha - 5000)
    ∧ (∀ k, k ≠ 2 → k ≠ 1 → users db' !! k = users two_users !! k)
    ∧ total (users db') = total (users two_users)
    ∧ length (transfers db') = S (length (transfers two_users)).
Proof.
  apply (transferMoney_moves_without_checks postgresql
           {| date := 20000; time_of_day := 0 |} "Asha" "Bilal" 5000 two_users
           2 bilal 1 asha).
  - vm_compute; reflexivity.
  - vm_compute; reflexivity.
  - vm_compute; reflexivity.
  - discriminate.
  - vm_compute; reflexivity.
  - vm_compute; reflexivity.
Defined.

(** X21.  A statement that fails ends the request with what was written
    before it kept.  When the database refuses the record, nothing is
    written.  When it takes the record and no user has the receiver's
    name, the record stays and no balance changes.  When the receiver is
    found and credited and no user has the sender's name, the record and
    the credit stay: the sum of the balances has grown by the amount.
    When the debit of the sender is refused because the new balance leaves
    the range of the column, the record and the credit stay as well. *)
Theorem transferMoney_failed_lookup_keeps_writes backend now name receiver amount db :
  let record :=
    {| TransferMoney.name := name; TransferMoney.amount := amount;
       TransferMoney.receiver := receiver; TransferMoney.date := now |} in
  (insert_accepted backend name receiver amount = false →
   transferMoney backend now name receiver amount db = Some (Uncaught ValueRefused, db))
  ∧ (insert_accepted backend name receiver amount = true →
     get_by_name (users db) receiver = inl DoesNotExist →
     transferMoney backend now name receiver amount db
     = Some (Uncaught DoesNotExist,
             {| users := users db; transfers := (transfers db ++ [record])%list |}))
  ∧ (∀ k1 q1,
       insert_accepted backend name receiver amount = true →
       get_by_name (users db) receiver = inr (k1, q1) →
       in_range backend (CreateUser.balance q1 + amount) = true →
       get_by_name (users db) name = inl DoesNotExist →
       ∃ db',
         transferMoney backend now name receiver amount db
         = Some (Uncaught DoesNotExist, db')
         ∧ transfers db' = (transfers db ++ [record])%list
         ∧ CreateUser.balance <$> users db' !! k1
           = Some (CreateUser.balance q1 + amount)
         ∧ total (users db') = total (users db) + amount)
  ∧ (∀ k1 q1 k2 q2,
       insert_accepted backend name receiver amount = true →
       get_by_name (users db) receiver = inr (k1, q1) →
       in_range backend (CreateUser.balance q1 + amount) = true →
       get_by_name (users db) name = inr (k2, q2) →
       k1 ≠ k2 →
       in_range backend (CreateUser.balance q2 - amount) = false →
       refuses_overflow backend = true →
       ∃ db',
         transferMoney backend now name receiver amount db
         = Some (Uncaught ValueRefused, db')
         ∧ transfers db' = (transfers db ++ [record])%list
         ∧ CreateUser.balance <$> users db' !! k1
           = Some (CreateUser.balance q1 + amount)
         ∧ users db' !! k2 = Some q2
         ∧ total (users db') = total (users db) + amount).
Proof.
  cbv zeta. unfold transferMoney. split; [| split; [| split]].
  - by intros ->.
  - by intros -> ->.
  - intros k1 q1 -> Hr Hr1 Hs. rewrite Hr, Hr1. cbn [negb].
    destruct (get_by_name_found _ _ _ _ Hr) as [Hk1 _].
    rewrite (get_by_name_move _ _ _ _ _ Hk1), Hs.
    eexists. split; [reflexivity |]. cbn [users transfers]. unfold move_balance.
    split; [reflexivity |]. split; [by rewrite lookup_insert_eq |].
    erewrite total_insert by exact Hk1. cbn. lia.
  - intros k1 q1 k2 q2 -> Hr Hr1 Hs Hne Hr2 Hrefuses. rewrite Hr, Hr1. cbn [negb].
    destruct (get_by_name_found _ _ _ _ Hr) as [Hk1 _].
    destruct (get_by_name_found _ _ _ _ Hs) as [Hk2 _].
    rewrite (get_by_name_move _ _ _ _ _ Hk1), Hs.
    rewrite decide_False by congruence. rewrite Hr2, Hrefuses. cbn [negb].
    eexists. split; [reflexivity |]. cbn [users transfers]. unfold move_balance.
    split; [reflexivity |]. split; [by rewrite lookup_insert_eq |].
    split; [by rewrite lookup_insert_ne by congruence |].
    erewrite total_insert by exact Hk1. cbn. lia.
Qed.

End LegacyFacts.

(** ** [update_daily_limit] and the model's validation *)

Lemma update_daily_limit_store env account new_limit db :
  bank_accounts (snd (update_daily_limit env None account new_limit db))
  = <[BankAccount.pk account := BankAccount_with_daily_transfer_limit new_limit account]>
      (bank_accounts db)
  ∧ transactions (snd (update_daily_limit env None account new_limit db))
    = transactions db.
Proof.
  unfold update_daily_limit, autocommit, try_except, bind, save_autocommit,
    log_action, try_except, bind, execute_write, ret, start. cbn.
  destruct (faults env CreateAuditLog); split; reflexivity.
Qed.

(** X22.  [update_daily_limit] checks nothing about the limit it is given:
    on a store that passes the models' validation, and for a caller's
    object that passes [BankAccount.clean], the store after the call still
    passes exactly when the new limit is not negative.  A limit that
    [AccountUpdateForm.clean_daily_transfer_limit] accepted is such a
    limit. *)
Theorem update_daily_limit_does_not_validate env account new_limit db :
  store_clean db →
  BankAccount_clean account = Return tt →
  let db' := snd (update_daily_limit env None account new_limit db) in
  (store_clean db' ↔ 0 ≤ new_limit)
  ∧ (clean_daily_transfer_limit new_limit = Valid new_limit → store_clean db').
Proof.
  intros [Ha Ht] Hacc. cbv zeta.
  destruct (update_daily_limit_store env account new_limit db) as [Haccs Htx].
  apply BankAccount_clean_ok in Hacc as [Hbal _].
  assert (Hiff : store_clean (snd (update_daily_limit env None account new_limit db))
                 ↔ 0 ≤ new_limit).
  { split.
    - intros [Ha' _].
      specialize (Ha' (BankAccount.pk account)
                    (BankAccount_with_daily_transfer_limit new_limit account)).
      rewrite Haccs, lookup_insert_eq in Ha'.
      apply BankAccount_clean_ok in Ha' as [_ Hl]; [exact Hl | reflexivity].
    - intros Hl. split.
      + unfold accounts_clean. rewrite Haccs.
        apply accounts_clean_insert; [exact Ha |].
        apply BankAccount_clean_ok. split; [exact Hbal | exact Hl].
      + unfold transactions_clean. rewrite Htx. exact Ht. }
  split; [exact Hiff |].
  intros Hform. apply Hiff. unfold clean_daily_transfer_limit in Hform.
  destruct (new_limit <? 100000) eqn:E; [discriminate |].
  apply Z.ltb_ge in E. lia.
Qed.

Lemma update_daily_limit_does_not_validate_witness :
  store_clean test_db
  ∧ ¬ store_clean
        (snd (update_daily_limit (env_with no_fault) None sender_account (-1) test_db)).
Proof.
  assert (H : store_clean test_db).
  { split.
    - intros k a Hk. apply elem_of_map_to_list, list_elem_of_In in Hk.
      vm_compute in Hk. destruct Hk as [[= <- <-] | [[= <- <-] | []]]; reflexivity.
    - intros x Hx. vm_compute in Hx. by apply elem_of_nil in Hx. }
  split; [exact H |].
  intros Hclean.
  apply (update_daily_limit_does_not_validate (env_with no_fault) sender_account (-1)
           test_db H eq_refl) in Hclean.
  lia.
Defined.

(** ** There and back *)

(** X8.  A transfer and the transfer of the same amount back, both
    accepted and without a failing write, leave both balances as they
    were and add two transactions. *)
Theorem transfer_there_and_back env env' db sender receiver amount description
    request rs rr :
  (∀ op, faults env op = None) →
  (∀ op, faults env' op = None) →
  bank_accounts db !! BankAccount.pk sender = Some rs →
  bank_accounts db !! BankAccount.pk receiver = Some rr →
  ¬ rejected env db sender receiver amount →
  let db1 := snd (transfer_money env db sender receiver amount description request) in
  ¬ rejected env' db1 receiver sender amount →
  let db2 := snd (transfer_money env' db1 receiver sender amount description request) in
  balance_of db1 (BankAccount.pk sender) = Some (BankAccount.balance rs - amount)
  ∧ balance_of db1 (BankAccount.pk receiver) = Some (BankAccount.balance rr + amount)
  ∧ balance_of db2 (BankAccount.pk sender) = Some (BankAccount.balance rs)
  ∧ balance_of db2 (BankAccount.pk receiver) = Some (BankAccount.balance rr)
  ∧ length (transactions db2) = S (S (length (transactions db))).
Proof.
  intros Hnf Hnf' Hs Hr Hnot. cbv zeta.
  assert (Hpre : BankAccount.pk sender ≠ BankAccount.pk receiver ∧ 0 < amount
                 ∧ BankAccount.is_active sender = true
                 ∧ amount ≤ BankAccount.balance sender
                 ∧ daily_transfer_total env db sender + amount
                   ≤ BankAccount.daily_transfer_limit sender
                 ∧ amount ≤ BankAccount.balance rs).
  { unfold rejected in Hnot. rewrite Hs, Hr in Hnot.
    destruct (BankAccount.is_active sender); [| tauto].
    repeat split; try lia; try tauto.
    destruct (Z_le_gt_dec amount (BankAccount.balance rs)); [done |].
    exfalso. apply Hnot. do 7 right. exists rs. split; [done | lia]. }
  destruct Hpre as (Hne & Hpos & Hact & Hbal & Hlim & Hfresh).
  destruct (transfer_succeeds env db sender receiver amount description request rs rr)
    as (t & db1 & Heq & _ & Haccs & Htx); auto.
  rewrite Heq. cbn [snd]. intros Hnot'.
  set (rs1 := BankAccount.with_balance (BankAccount.balance rs - amount)
                (BankAccount.with_pk (BankAccount.pk sender) rs)).
  set (rr1 := BankAccount.with_balance (BankAccount.balance rr + amount)
                (BankAccount.with_pk (BankAccount.pk receiver) rr)).
  assert (Hs1 : bank_accounts db1 !! BankAccount.pk sender = Some rs1).
  { rewrite Haccs. unfold debit_credit.
    rewrite lookup_insert_ne by congruence. by rewrite lookup_insert_eq. }
  assert (Hr1 : bank_accounts db1 !! BankAccount.pk receiver = Some rr1).
  { rewrite Haccs. unfold debit_credit. by rewrite lookup_insert_eq. }
  assert (Hpre' : 0 < amount
                  ∧ BankAccount.is_active receiver = true
                  ∧ amount ≤ BankAccount.balance receiver
                  ∧ daily_transfer_total env' db1 receiver + amount
                    ≤ BankAccount.daily_transfer_limit receiver
                  ∧ amount ≤ BankAccount.balance rr1).
  { unfold rejected in Hnot'. rewrite Hs1, Hr1 in Hnot'.
    destruct (BankAccount.is_active receiver); [| tauto].
    repeat split; try lia; try tauto.
    destruct (Z_le_gt_dec amount (BankAccount.balance rr1)); [done |].
    exfalso. apply Hnot'. do 7 right. exists rr1. split; [done | lia]. }
  destruct Hpre' as (_ & Hact' & Hbal' & Hlim' & Hfresh').
  destruct (transfer_succeeds env' db1 receiver sender amount description request
              rr1 rs1) as (t2 & db2 & Heq2 & _ & Haccs2 & Htx2); auto.
  rewrite Heq2. cbn [snd]. unfold balance_of.
  rewrite Hs1, Hr1, Haccs2.
  rewrite debit_credit_receiver.
  rewrite debit_credit_sender by congruence.
  rewrite Htx2, Htx, !length_app. cbn.
  repeat split; f_equal; lia.
Qed.

Lemma transfer_there_and_back_witness :
  let db1 := snd (transfer_money (env_with no_fault) test_db sender_account
                    receiver_account 20000 "rent" None) in
  let db2 := snd (transfer_money (env_with no_fault) db1 receiver_account
                    sender_account 20000 "rent" None) in
  balance_of db1 (BankAccount.pk sender_account)
    = Some (BankAccount.balance sender_account - 20000)
  ∧ balance_of db1 (BankAccount.pk receiver_account)
    = Some (BankAccount.balance receiver_account + 20000)
  ∧ balance_of db2 (BankAccount.pk sender_account)
    = Some (BankAccount.balance sender_account)
  ∧ balance_of db2 (BankAccount.pk receiver_account)
    = Some (BankAccount.balance receiver_account)
  ∧ length (transactions db2) = S (S (length (transactions test_db))).
Proof.
  apply (transfer_there_and_back (env_with no_fault) (env_with no_fault) test_db
           sender_account receiver_account 20000 "rent" None
           sender_account receiver_account).
  - intros op; reflexivity.
  - intros op; reflexivity.
  - vm_compute; reflexivity.
  - vm_compute; reflexivity.
  - intros Hrej.
    destruct (rejected_no_mutation (env_with no_fault) _ _ _ _ "rent" None
                eq_refl eq_refl Hrej)
      as (msg & Heq).
    vm_compute in Heq. discriminate.
  - intros Hrej.
    destruct (rejected_no_mutation (env_with no_fault) _ _ _ _ "rent" None
                eq_refl eq_refl Hrej)
      as (msg & Heq).
    vm_compute in Heq. discriminate.
Defined.
